(** * clocpy: a line counter for source files

    Shallow embedding of [clocpy.py] and the properties of its
    classification-and-counting engine: the language registry, the
    resolution of a file's language, the per-line classification, the
    aggregation loop and the report rows. *)

From Stdlib Require Import String Ascii.
From Stdlib Require Import List NArith Arith Bool Lia.
From Stdlib Require Import Permutation Sorted.
Import ListNotations.

(** ** The Python values the program manipulates *)

Module Py.

(** A Python [str] is a sequence of Unicode code points. *)
Definition char := N.
Definition str := list char.

(** [u "..."] writes a [str] literal (code points below 256). *)
Definition u (s : string) : str :=
  map N_of_ascii (list_ascii_of_string s).

Definition str_eq_dec : forall a b : str, {a = b} + {a <> b} :=
  list_eq_dec N.eq_dec.

(** Truth value of a [str]: the empty string is falsy. *)
Definition truthy (s : str) : bool :=
  match s with [] => false | _ :: _ => true end.

(** [str.isspace] on one code point: the characters [str.strip()]
    removes when it is called without argument. *)
Definition is_space (c : char) : bool :=
  ((9 <=? c) && (c <=? 13) || (28 <=? c) && (c <=? 32)
   || (c =? 133) || (c =? 160) || (c =? 5760)
   || (8192 <=? c) && (c <=? 8202)
   || (c =? 8232) || (c =? 8233) || (c =? 8239) || (c =? 8287)
   || (c =? 12288))%N.

(** The line boundaries of [str.splitlines]. *)
Definition is_linebreak (c : char) : bool :=
  ((10 <=? c) && (c <=? 13) || (28 <=? c) && (c <=? 30)
   || (c =? 133) || (c =? 8232) || (c =? 8233))%N.

Fixpoint lstrip (s : str) : str :=
  match s with
  | [] => []
  | c :: rest => if is_space c then lstrip rest else s
  end.

Definition rstrip (s : str) : str := rev (lstrip (rev s)).

(** [s.strip()] *)
Definition strip (s : str) : str := rstrip (lstrip s).

(** [s.splitlines()]: [cur] holds the characters of the line being
    read, last one first.  A carriage return followed by a line feed
    is one boundary; no empty line is produced after the last
    boundary. *)
Fixpoint splitlines_from (cur : str) (s : str) : list str :=
  match s with
  | [] => match cur with [] => [] | _ :: _ => [rev cur] end
  | c :: rest =>
      if is_linebreak c then
        match rest with
        | c2 :: rest2 =>
            if ((c =? 13) && (c2 =? 10))%N
            then rev cur :: splitlines_from [] rest2
            else rev cur :: splitlines_from [] rest
        | [] => rev cur :: splitlines_from [] rest
        end
      else splitlines_from (c :: cur) rest
  end.

Definition splitlines (s : str) : list str := splitlines_from [] s.

(** [s.startswith(p)] for a [str] argument. *)
Fixpoint str_startswith (s p : str) : bool :=
  match p, s with
  | [], _ => true
  | _ :: _, [] => false
  | a :: p', b :: s' => (a =? b)%N && str_startswith s' p'
  end.

(** [s.endswith(p)] for a [str] argument. *)
Definition str_endswith (s p : str) : bool :=
  str_startswith (rev s) (rev p).

(** A value annotated [Union[str, Tuple[str, ...]]]. *)
Inductive StrOrTuple :=
| Str (s : str)
| Tup (t : list str).

Definition StrOrTuple_eq_dec :
  forall a b : StrOrTuple, {a = b} + {a <> b}.
Proof.
  decide equality; first [apply str_eq_dec | apply (list_eq_dec str_eq_dec)].
Defined.

(** [s.startswith(x)] and [s.endswith(x)]: with a tuple the test
    succeeds when it does for one of the members. *)
Definition startswith (s : str) (x : StrOrTuple) : bool :=
  match x with
  | Str p => str_startswith s p
  | Tup t => existsb (str_startswith s) t
  end.

Definition endswith (s : str) (x : StrOrTuple) : bool :=
  match x with
  | Str p => str_endswith s p
  | Tup t => existsb (str_endswith s) t
  end.

(** [tuple(x)]: a tuple is returned as it is, a [str] is iterated
    and gives one string of length one per character. *)
Definition tuple (x : StrOrTuple) : list str :=
  match x with
  | Str s => map (fun c => [c]) s
  | Tup t => t
  end.

(** The strings a [startswith] or [endswith] argument stands for. *)
Definition alternatives (x : StrOrTuple) : list str :=
  match x with
  | Str s => [s]
  | Tup t => t
  end.

(** [s.rfind(".")]: the index of the last dot, if there is one. *)
Fixpoint rfind_dot (s : str) : option nat :=
  match s with
  | [] => None
  | c :: rest =>
      match rfind_dot rest with
      | Some i => Some (S i)
      | None => if (c =? 46)%N then Some 0 else None
      end
  end.

End Py.

Import Py.

(** ** Paths

    A [pathlib.Path] is kept as the list of its components after the
    drive and the root.  [path_name] is the last of them and [suffix]
    follows [PurePath.suffix]: the part of the name from its last dot,
    when that dot is neither the first nor the last character. *)

Record Path := mkPath { parts : list str }.

Definition Path_eq_dec : forall a b : Path, {a = b} + {a <> b}.
Proof.
  decide equality; apply (list_eq_dec str_eq_dec).
Defined.

Definition path_name (p : Path) : str := last (parts p) [].

Definition suffix (p : Path) : str :=
  let n := path_name p in
  match rfind_dot n with
  | Some i => if (0 <? i) && (i <? length n - 1) then skipn i n else []
  | None => []
  end.

(** ** Data model *)

(** An element of [multiline_comment_sequences]: the annotation asks
    for pairs, the C-like factory stores the two delimiters as plain
    strings. *)
Inductive CommentSeq :=
| SeqStr (s : str)
| SeqPair (start stop : str).

Definition CommentSeq_eq_dec : forall a b : CommentSeq, {a = b} + {a <> b}.
Proof.
  decide equality; apply str_eq_dec.
Defined.

Record Language := mkLanguage {
  name : str;
  file_suffix : StrOrTuple;
  comment_line_prefixes : StrOrTuple;
  multiline_comment_sequences : list CommentSeq
}.

(** The dataclass equality: field by field. *)
Definition Language_eq_dec : forall a b : Language, {a = b} + {a <> b}.
Proof.
  decide equality;
    first [apply str_eq_dec | apply StrOrTuple_eq_dec
          | apply (list_eq_dec CommentSeq_eq_dec)].
Defined.

Record AnalysisInfo := mkAnalysisInfo {
  files : nat;
  blank : nat;
  comment : nat;
  code : nat
}.

(** [AnalysisInfo()] *)
Definition AnalysisInfo_new : AnalysisInfo := mkAnalysisInfo 0 0 0 0.

(** [Language.get_factory]: the defaults are turned into tuples and
    put before the language's own. *)
Definition get_factory
    (default_comment_line_prefixes : StrOrTuple)
    (default_multiline_comment_sequences : list CommentSeq)
    (name : str) (file_suffix : StrOrTuple)
    (comment_line_prefixes : StrOrTuple)
    (multiline_comment_sequences : list CommentSeq) : Language :=
  mkLanguage name file_suffix
    (Tup (tuple default_comment_line_prefixes ++ tuple comment_line_prefixes))
    (default_multiline_comment_sequences ++ multiline_comment_sequences).

(** [CLIKE = Language.get_factory("//", ("/*", "*/"))], called with
    the two defaults [()] of [language_factory]. *)
Definition CLIKE (name : str) (file_suffix : StrOrTuple) : Language :=
  get_factory (Str (u "//")) [SeqStr (u "/*"); SeqStr (u "*/")]
    name file_suffix (Tup []) [].

Definition SUPPORTED_LANGUAGES : list Language :=
  [ CLIKE (u "C") (Str (u ".c"));
    CLIKE (u "C++") (Tup [u ".c++"; u ".cpp"]);
    CLIKE (u "Javascript") (Str (u ".js"));
    CLIKE (u "C#") (Tup [u ".cs"; u ".csx"]);
    CLIKE (u "Java") (Str (u ".java"));
    CLIKE (u "Golang") (Str (u ".go"));
    mkLanguage (u "Python") (Tup [u ".py"; u ".pyw"]) (Str (u "#"))
      [SeqPair [34; 34; 34]%N [34; 34; 34]%N] ].

(** ** Resolution of a file's language *)

(** The loop returns at the first language that matches; falling off
    its end returns [None]. *)
Fixpoint figure_out_file_type
    (file : Path) (supported_languages : list Language) : option Language :=
  match supported_languages with
  | [] => None
  | lang :: others =>
      if endswith (suffix file) (file_suffix lang) then Some lang
      else figure_out_file_type file others
  end.

(** ** The file system the program runs against

    [os_walk] stands for [os.walk(top, True, None, followlinks=True)]:
    the visited directories with the names of their sub-directories
    and of their files.  [read_text] is [Path.read_text()]; [None]
    stands for the exception raised when the file cannot be opened or
    decoded. *)

Record FileSystem := mkFileSystem {
  is_dir : Path -> bool;
  is_file : Path -> bool;
  os_walk : Path -> list (Path * list str * list str);
  read_text : Path -> option str
}.

(** [Path(root, d)] for a name [d] found in the directory [root]. *)
Definition Path_join (root : Path) (d : str) : Path :=
  mkPath (parts root ++ [d]).

Definition pathwalk (fs : FileSystem) (top : Path)
  : list (Path * list Path * list Path) :=
  map (fun '(root, dirs, files) =>
         (root, map (Path_join root) dirs, map (Path_join root) files))
      (os_walk fs top).

Definition iter_all_files (fs : FileSystem) (root_dir : Path) : list Path :=
  concat (map (fun '(_, _, files) => files) (pathwalk fs root_dir)).

(** ** The aggregation mapping

    [language_analysis_info] is a [dict]: it keeps its keys in the
    order of their first insertion, so it is an association list in
    which a new key goes to the end and an assignment to a present key
    replaces the value in place. *)

Definition Dict := list (Language * AnalysisInfo).

Fixpoint dict_get (d : Dict) (k : Language) : option AnalysisInfo :=
  match d with
  | [] => None
  | (k', v) :: d' => if Language_eq_dec k' k then Some v else dict_get d' k
  end.

(** [k in d] *)
Definition dict_contains (d : Dict) (k : Language) : bool :=
  match dict_get d k with Some _ => true | None => false end.

(** [d[k] = v] *)
Fixpoint dict_set (d : Dict) (k : Language) (v : AnalysisInfo) : Dict :=
  match d with
  | [] => [(k, v)]
  | (k', v') :: d' =>
      if Language_eq_dec k' k then (k', v) :: d'
      else (k', v') :: dict_set d' k v
  end.

(** The local variable [analysis] is the very object stored under
    [ftype]: an assignment to one of its fields is seen through the
    mapping.  [mutate d k f] applies the field update [f] to the
    object stored under [k]. *)
Definition mutate (d : Dict) (k : Language)
    (f : AnalysisInfo -> AnalysisInfo) : Dict :=
  match dict_get d k with
  | Some v => dict_set d k (f v)
  | None => d
  end.

(** [analysis.files += 1] and its three siblings. *)
Definition incr_files (a : AnalysisInfo) : AnalysisInfo :=
  mkAnalysisInfo (files a + 1) (blank a) (comment a) (code a).
Definition incr_blank (a : AnalysisInfo) : AnalysisInfo :=
  mkAnalysisInfo (files a) (blank a + 1) (comment a) (code a).
Definition incr_comment (a : AnalysisInfo) : AnalysisInfo :=
  mkAnalysisInfo (files a) (blank a) (comment a + 1) (code a).
Definition incr_code (a : AnalysisInfo) : AnalysisInfo :=
  mkAnalysisInfo (files a) (blank a) (comment a) (code a + 1).

(** ** The counting loop *)

(** The body of [for line in contents]: [line] is already stripped. *)
Definition count_line (ftype : Language) (analysis : AnalysisInfo)
    (line : str) : AnalysisInfo :=
  if negb (truthy line) then incr_blank analysis
  else if startswith line (comment_line_prefixes ftype)
       then incr_comment analysis
       else incr_code analysis.

Inductive Exn :=
| ValueError (root_path : Path)
| ReadError (file : Path).

(** What the run has done so far: the mapping, and the files whose
    text was asked for, in order. *)
Record State := mkState {
  language_analysis_info : Dict;
  reads : list Path
}.

(** The body of [for file in files].  The second component is the
    exception that left the loop, if any. *)
Definition analyse_file (fs : FileSystem) (file : Path) (st : State)
  : State * option Exn :=
  match figure_out_file_type file SUPPORTED_LANGUAGES with
  | None => (st, None)
  | Some ftype =>
      let d := language_analysis_info st in
      let d1 := if negb (dict_contains d ftype)
                then dict_set d ftype AnalysisInfo_new
                else d in
      let d2 := mutate d1 ftype incr_files in
      let log := reads st ++ [file] in
      match read_text fs file with
      | None => (mkState d2 log, Some (ReadError file))
      | Some text =>
          let contents := map strip (splitlines text) in
          (mkState
             (fold_left
                (fun d line => mutate d ftype (fun a => count_line ftype a line))
                contents d2)
             log,
           None)
      end
  end.

Fixpoint analyse_files (fs : FileSystem) (files : list Path) (st : State)
  : State * option Exn :=
  match files with
  | [] => (st, None)
  | file :: rest =>
      match analyse_file fs file st with
      | (st', None) => analyse_files fs rest st'
      | (st', Some e) => (st', Some e)
      end
  end.

(** The aggregation of a file sequence, from [language_analysis_info = {}]. *)
Definition aggregate (fs : FileSystem) (files : list Path)
  : State * option Exn :=
  analyse_files fs files (mkState [] []).

(** ** The report *)

(** [sorted(items, key=lambda o: o[1].code, reverse=True)]: the order
    is by decreasing key and items of equal key keep their order. *)
Fixpoint insert_desc (x : Language * AnalysisInfo) (l : Dict) : Dict :=
  match l with
  | [] => [x]
  | y :: l' =>
      if code (snd y) <=? code (snd x) then x :: y :: l'
      else y :: insert_desc x l'
  end.

Fixpoint sorted_by_code_reverse (items : Dict) : Dict :=
  match items with
  | [] => []
  | x :: l => insert_desc x (sorted_by_code_reverse l)
  end.

(** A row handed to [Table.add_row]: the label, the four numbers (the
    table shows them through [str]) and the [end_section] flag. *)
Record Row := mkRow {
  label : str;
  cells : list nat;
  end_section : bool
}.

Record Totals := mkTotals {
  total_files : nat;
  total_blanks : nat;
  total_comments : nat;
  total_code : nat
}.

(** The loop over [enumerate(sorted_analysis_info)]: it adds a row per
    language and accumulates the four totals. *)
Fixpoint add_rows (len : nat) (index : nat) (items : Dict)
    (table : list Row) (t : Totals) : list Row * Totals :=
  match items with
  | [] => (table, t)
  | (ftype, analysis) :: rest =>
      add_rows len (S index) rest
        (table ++ [mkRow (name ftype)
                     [files analysis; blank analysis;
                      comment analysis; code analysis]
                     (index =? len - 1)])
        (mkTotals (total_files t + files analysis)
                  (total_blanks t + blank analysis)
                  (total_comments t + comment analysis)
                  (total_code t + code analysis))
  end.

(** The rows of the table that is printed, the [SUM] row last. *)
Definition build_table (d : Dict) : list Row :=
  let sorted_analysis_info := sorted_by_code_reverse d in
  let '(table, t) :=
    add_rows (length d) 0 sorted_analysis_info [] (mkTotals 0 0 0 0) in
  table ++ [mkRow (u "SUM")
              [total_files t; total_blanks t; total_comments t; total_code t]
              false].

(** ** The command *)

Inductive Outcome :=
| Raised (e : Exn) (reads : list Path) (info : option Dict)
| Printed (reads : list Path) (info : Dict) (table : list Row).

(** What follows the choice of [files]: the loop, then the table. *)
Definition run_on (fs : FileSystem) (files : list Path) : Outcome :=
  match aggregate fs files with
  | (st, None) =>
      Printed (reads st) (language_analysis_info st)
              (build_table (language_analysis_info st))
  | (st, Some e) => Raised e (reads st) (Some (language_analysis_info st))
  end.

Definition clocpy (fs : FileSystem) (root_path : Path) : Outcome :=
  if is_dir fs root_path then run_on fs (iter_all_files fs root_path)
  else if is_file fs root_path then run_on fs [root_path]
  else Raised (ValueError root_path) [] None.

(** ** Vocabulary of the properties *)

(** The three classes of a line and the counter each one increments. *)
Inductive LineKind := Blank | Comment | Code.

Definition bump (k : LineKind) (a : AnalysisInfo) : AnalysisInfo :=
  match k with
  | Blank => incr_blank a
  | Comment => incr_comment a
  | Code => incr_code a
  end.

(** [p] is at the start, respectively at the end, of [s]. *)
Definition starts_with (s p : str) : Prop := exists t, s = p ++ t.
Definition ends_with (s p : str) : Prop := exists t, s = t ++ p.

(** The trimmed line [line] starts with one of the configured
    comment-line prefixes of [ftype]. *)
Definition has_comment_prefix (ftype : Language) (line : str) : Prop :=
  exists p, In p (alternatives (comment_line_prefixes ftype))
            /\ starts_with line p.

(** One of the registered extension strings of [lang] ends the suffix
    of [file]. *)
Definition extension_matches (file : Path) (lang : Language) : Prop :=
  exists ext, In ext (alternatives (file_suffix lang))
              /\ ends_with (suffix file) ext.

(** The counters of a language in a mapping, zero when it is absent. *)
Definition info_of (d : Dict) (k : Language) : AnalysisInfo :=
  match dict_get d k with
  | Some a => a
  | None => AnalysisInfo_new
  end.

Definition lines_counted (a : AnalysisInfo) : nat :=
  blank a + comment a + code a.

(** The stripped lines of a text, as the loop sees them. *)
Definition contents_of (text : str) : list str :=
  map strip (splitlines text).

(** The lines read from the files of [files] attributed to [lang]. *)
Fixpoint lines_read (fs : FileSystem) (lang : Language) (files : list Path)
  : nat :=
  match files with
  | [] => 0
  | file :: rest =>
      match figure_out_file_type file SUPPORTED_LANGUAGES, read_text fs file with
      | Some ftype, Some text =>
          if Language_eq_dec ftype lang
          then length (splitlines text) + lines_read fs lang rest
          else lines_read fs lang rest
      | _, _ => lines_read fs lang rest
      end
  end.

(** The whole effect of the inner loop on the object [analysis]. *)
Definition count_lines (ftype : Language) (analysis : AnalysisInfo)
    (contents : list str) : AnalysisInfo :=
  fold_left (count_line ftype) contents analysis.

(** What a table row shows, and its code cell. *)
Definition row_data (r : Row) : str * list nat := (label r, cells r).
Definition item_data (x : Language * AnalysisInfo) : str * list nat :=
  (name (fst x),
   [files (snd x); blank (snd x); comment (snd x); code (snd x)]).
Definition data_code (x : str * list nat) : nat := nth 3 (snd x) 0.
Definition column (i : nat) (rows : list Row) : nat :=
  list_sum (map (fun r => nth i (cells r) 0) rows).

(** The branch [count_line] takes, as a function of the line. *)
Definition kind_of (ftype : Language) (line : str) : LineKind :=
  if negb (truthy line) then Blank
  else if startswith line (comment_line_prefixes ftype) then Comment
  else Code.

(** The languages the registry builds with [CLIKE]. *)
Definition clike_languages : list Language := firstn 6 SUPPORTED_LANGUAGES.

(** ** Vocabulary of the further properties *)

(** The file resolves to some registered language. *)
Definition recognised (file : Path) : bool :=
  match figure_out_file_type file SUPPORTED_LANGUAGES with
  | Some _ => true
  | None => false
  end.

(** The file resolves to the language [lang]. *)
Definition attributed (lang : Language) (file : Path) : bool :=
  match figure_out_file_type file SUPPORTED_LANGUAGES with
  | Some ftype => if Language_eq_dec ftype lang then true else false
  | None => false
  end.

Definition LineKind_eqb (a b : LineKind) : bool :=
  match a, b with
  | Blank, Blank | Comment, Comment | Code, Code => true
  | _, _ => false
  end.

(** The number of lines of [contents] the loop body puts in class [k]. *)
Definition count_kind (ftype : Language) (k : LineKind)
    (contents : list str) : nat :=
  length (filter (fun line => LineKind_eqb (kind_of ftype line) k) contents).

(** The lines of class [k] in the text of [file], none when the text
    cannot be read. *)
Definition kind_lines_in (fs : FileSystem) (ftype : Language) (k : LineKind)
    (file : Path) : nat :=
  match read_text fs file with
  | Some text => count_kind ftype k (contents_of text)
  | None => 0
  end.

(** The lines of class [k] in the files of [files] attributed to [lang]. *)
Definition kind_lines (fs : FileSystem) (lang : Language) (k : LineKind)
    (files : list Path) : nat :=
  list_sum (map (kind_lines_in fs lang k) (filter (attributed lang) files)).

(** The lines of class [k] in all the recognised files of [files], each
    classified with the rules of its own language. *)
Definition all_kind_lines (fs : FileSystem) (k : LineKind)
    (files : list Path) : nat :=
  list_sum
    (map (fun file =>
            match figure_out_file_type file SUPPORTED_LANGUAGES with
            | Some ftype => kind_lines_in fs ftype k file
            | None => 0
            end)
         files).

(** The keys of the mapping, in its order. *)
Definition keys (d : Dict) : list Language := map fst d.

(** The sum of one counter over the entries of the mapping. *)
Definition counter_sum (f : AnalysisInfo -> nat) (d : Dict) : nat :=
  list_sum (map (fun x => f (snd x)) d).

(** The string starts with a dot. *)
Definition dotted (ext : str) : Prop := exists e, ext = 46%N :: e.

(** ** A small tree of files, used in the examples *)

Definition project : Path := mkPath [u "project"].
Definition main_c : Path := Path_join project (u "main.c").
Definition notes_txt : Path := Path_join project (u "notes.txt").
Definition empty_cpp : Path := Path_join project (u "empty.cpp").
Definition broken_py : Path := Path_join project (u "broken.py").
Definition missing : Path := mkPath [u "missing"].

(** Three lines: code, blank once stripped, comment. *)
Definition main_c_text : str :=
  u "int main() {}" ++ [10%N] ++ u " " ++ [10%N] ++ u "// hi" ++ [10%N].

Definition same_path (p q : Path) : bool :=
  if Path_eq_dec p q then true else false.

(** [broken.py] is there and cannot be read. *)
Definition project_fs : FileSystem :=
  mkFileSystem
    (fun p => same_path p project)
    (fun p => existsb (same_path p) [main_c; notes_txt; empty_cpp; broken_py])
    (fun top =>
       if same_path top project
       then [(project, [],
              [u "main.c"; u "notes.txt"; u "empty.cpp"; u "broken.py"])]
       else [])
    (fun p =>
       if same_path p main_c then Some main_c_text
       else if same_path p notes_txt then Some (u "// not counted")
       else if same_path p empty_cpp then Some []
       else None).

(** The same files after [broken.py] was repaired. *)
Definition repaired_fs : FileSystem :=
  mkFileSystem (is_dir project_fs) (is_file project_fs) (os_walk project_fs)
    (fun p =>
       if same_path p broken_py then Some (u "# fixed")
       else read_text project_fs p).

(** ** Strings *)

Section Strings.

Lemma str_startswith_spec (s p : str) :
  str_startswith s p = true <-> starts_with s p.
Proof.
  unfold starts_with. revert s.
  induction p as [|a p IH]; intros s; simpl.
  - split; [intros _; now exists s | intros _; now destruct s].
  - destruct s as [|b s]; simpl.
    + split; [discriminate | intros [t Ht]; discriminate].
    + rewrite andb_true_iff, N.eqb_eq, IH. split.
      * intros [-> [t ->]]. now exists t.
      * intros [t Ht]. injection Ht as -> ->. split; [reflexivity | now exists t].
Qed.

Lemma str_endswith_spec (s p : str) :
  str_endswith s p = true <-> ends_with s p.
Proof.
  unfold str_endswith, ends_with. rewrite str_startswith_spec. split.
  - intros [t Ht]. exists (rev t).
    rewrite <- (rev_involutive s), Ht, rev_app_distr, rev_involutive.
    reflexivity.
  - intros [t ->]. exists (rev t). apply rev_app_distr.
Qed.

Lemma startswith_spec (s : str) (x : StrOrTuple) :
  startswith s x = true
  <-> exists p, In p (alternatives x) /\ starts_with s p.
Proof.
  destruct x as [p|t]; simpl.
  - rewrite str_startswith_spec. split.
    + intros H. exists p. auto.
    + intros [q [[<-|[]] H]]. exact H.
  - rewrite existsb_exists. split; intros [p [Hin H]]; exists p;
      (split; [exact Hin | now apply str_startswith_spec]).
Qed.

Lemma endswith_spec (s : str) (x : StrOrTuple) :
  endswith s x = true
  <-> exists p, In p (alternatives x) /\ ends_with s p.
Proof.
  destruct x as [p|t]; simpl.
  - rewrite str_endswith_spec. split.
    + intros H. exists p. auto.
    + intros [q [[<-|[]] H]]. exact H.
  - rewrite existsb_exists. split; intros [p [Hin H]]; exists p;
      (split; [exact Hin | now apply str_endswith_spec]).
Qed.

Lemma truthy_false (s : str) : truthy s = false <-> s = [].
Proof.
  destruct s; simpl; split; congruence.
Qed.

End Strings.

(** ** Classification of a line *)

Lemma bump_injective (a : AnalysisInfo) (k k' : LineKind) :
  bump k a = bump k' a -> k = k'.
Proof.
  destruct a as [f b c d].
  destruct k, k'; simpl; unfold incr_blank, incr_comment, incr_code; simpl;
    intros H; try reflexivity; injection H; intros; lia.
Qed.

Lemma count_line_kind (ftype : Language) (a : AnalysisInfo) (line : str) :
  count_line ftype a line = bump (kind_of ftype line) a.
Proof.
  unfold count_line, kind_of.
  destruct (negb (truthy line)); [reflexivity|].
  destruct (startswith line (comment_line_prefixes ftype)); reflexivity.
Qed.

(** C2: for every language and every line, the loop body increments
    exactly one of the three counters: blank when the stripped line is
    empty, else comment when the stripped line starts with one of the
    language's configured comment-line prefixes, else code. *)
Theorem classification_total_and_exclusive :
  forall (ftype : Language) (raw : str) (analysis : AnalysisInfo),
    let line := strip raw in
    exists k : LineKind,
      count_line ftype analysis line = bump k analysis
      /\ (forall k', count_line ftype analysis line = bump k' analysis
                     -> k' = k)
      /\ (k = Blank <-> line = [])
      /\ (k = Comment <-> line <> [] /\ has_comment_prefix ftype line)
      /\ (k = Code <-> line <> [] /\ ~ has_comment_prefix ftype line).
Proof.
  intros ftype raw analysis line.
  exists (kind_of ftype line).
  split; [apply count_line_kind|].
  split.
  { intros k' H. rewrite count_line_kind in H.
    symmetry. now apply bump_injective with analysis. }
  unfold kind_of, has_comment_prefix.
  destruct (truthy line) eqn:Ht; simpl.
  - assert (Hne : line <> []).
    { intros E. apply truthy_false in E. congruence. }
    destruct (startswith line (comment_line_prefixes ftype)) eqn:Hs.
    + apply startswith_spec in Hs.
      repeat split; try discriminate; try congruence; tauto.
    + assert (Hn : ~ exists p, In p (alternatives (comment_line_prefixes ftype))
                               /\ starts_with line p).
      { intros H. apply startswith_spec in H. congruence. }
      repeat split; try discriminate; try congruence; tauto.
  - apply truthy_false in Ht.
    repeat split; try discriminate; try congruence; tauto.
Qed.

(** What [CLIKE] configures: [tuple] iterates the string of the
    marker, so the prefix that is tested is the single slash. *)
Lemma clike_comment_line (nm : str) (sfx : StrOrTuple)
    (a : AnalysisInfo) (line : str) :
  line <> [] ->
  (count_line (CLIKE nm sfx) a line = incr_comment a
   <-> starts_with line (u "/")).
Proof.
  intros Hne. rewrite count_line_kind.
  change (incr_comment a) with (bump Comment a).
  split.
  - intros H. apply bump_injective in H. unfold kind_of in H.
    destruct (negb (truthy line)); [discriminate|].
    destruct (startswith line (comment_line_prefixes (CLIKE nm sfx))) eqn:Hs;
      [|discriminate].
    apply startswith_spec in Hs. destruct Hs as [p [Hin Hp]].
    simpl in Hin. destruct Hin as [<-|[<-|[]]]; exact Hp.
  - intros H. f_equal. unfold kind_of.
    destruct (truthy line) eqn:Ht; cbn [negb].
    + replace (startswith line (comment_line_prefixes (CLIKE nm sfx)))
        with true; [reflexivity|].
      symmetry. apply startswith_spec. exists (u "/"). split; [now left|exact H].
    + apply truthy_false in Ht. contradiction.
Qed.

(** C1: in each of C, C++, Javascript, C#, Java and Golang the line
    [/ 2;] is not blank and does not start with the two slashes, and
    it is counted as a comment, not as code. *)
Theorem slash_line_counted_as_comment :
  map name clike_languages
  = [u "C"; u "C++"; u "Javascript"; u "C#"; u "Java"; u "Golang"]
  /\ strip (u "/ 2;") = u "/ 2;"
  /\ str_startswith (u "/ 2;") (u "//") = false
  /\ Forall (fun lang =>
               forall analysis,
                 count_line lang analysis (strip (u "/ 2;"))
                 = incr_comment analysis
                 /\ count_line lang analysis (strip (u "/ 2;"))
                    <> incr_code analysis)
            clike_languages.
Proof.
  split; [reflexivity|]. split; [reflexivity|]. split; [reflexivity|].
  assert (Hneq : forall a, incr_comment a <> incr_code a).
  { intros a H. apply (bump_injective a Comment Code) in H. discriminate. }
  repeat constructor; try apply Hneq.
Qed.

(** ** Resolution of the language *)

Lemma figure_out_first_match (file : Path) (langs : list Language) :
  match figure_out_file_type file langs with
  | Some lang =>
      exists before after,
        langs = before ++ lang :: after
        /\ extension_matches file lang
        /\ Forall (fun l => ~ extension_matches file l) before
  | None => Forall (fun l => ~ extension_matches file l) langs
  end.
Proof.
  induction langs as [|lang others IH]; simpl.
  - constructor.
  - destruct (endswith (suffix file) (file_suffix lang)) eqn:He.
    + exists [], others. split; [reflexivity|]. split; [|constructor].
      now apply endswith_spec.
    + assert (Hn : ~ extension_matches file lang).
      { intros H. apply endswith_spec in H. congruence. }
      destruct (figure_out_file_type file others) as [found|].
      * destruct IH as [before [after [-> [Hm Hb]]]].
        exists (lang :: before), after.
        split; [reflexivity|]. split; [exact Hm|]. now constructor.
      * now constructor.
Qed.

(** C3: the registry is in the order C, C++, Javascript, C#, Java,
    Golang, Python; the language returned for a path is the first
    entry one of whose extension strings ends the path's suffix; when
    no entry matches the result is [None], no exception, and the loop
    body leaves the state as it is and goes on. *)
Theorem resolution_first_match :
  forall file : Path,
    map name SUPPORTED_LANGUAGES
    = [u "C"; u "C++"; u "Javascript"; u "C#"; u "Java"; u "Golang";
       u "Python"]
    /\ match figure_out_file_type file SUPPORTED_LANGUAGES with
       | Some lang =>
           exists before after,
             SUPPORTED_LANGUAGES = before ++ lang :: after
             /\ extension_matches file lang
             /\ Forall (fun l => ~ extension_matches file l) before
       | None =>
           Forall (fun l => ~ extension_matches file l) SUPPORTED_LANGUAGES
           /\ forall fs st, analyse_file fs file st = (st, None)
       end.
Proof.
  intros file. split; [reflexivity|].
  pose proof (figure_out_first_match file SUPPORTED_LANGUAGES) as H.
  unfold analyse_file.
  destruct (figure_out_file_type file SUPPORTED_LANGUAGES) as [lang|].
  - exact H.
  - split; [exact H | reflexivity].
Qed.

(** ** The mapping *)

Section DictFacts.

Variables (d : Dict) (k : Language).

Lemma dict_get_set_same (v : AnalysisInfo) :
  dict_get (dict_set d k v) k = Some v.
Proof.
  induction d as [|[k' v'] d' IH]; simpl.
  - destruct (Language_eq_dec k k); congruence.
  - destruct (Language_eq_dec k' k) as [E|N]; simpl.
    + destruct (Language_eq_dec k' k); congruence.
    + destruct (Language_eq_dec k' k); [contradiction | exact IH].
Qed.

Lemma dict_get_set_other (v : AnalysisInfo) (k' : Language) :
  k <> k' -> dict_get (dict_set d k v) k' = dict_get d k'.
Proof.
  intros Hne. induction d as [|[k0 v0] d' IH]; simpl.
  - destruct (Language_eq_dec k k'); congruence.
  - destruct (Language_eq_dec k0 k) as [E|N]; simpl.
    + destruct (Language_eq_dec k0 k'); congruence.
    + destruct (Language_eq_dec k0 k'); [reflexivity | exact IH].
Qed.

Lemma dict_set_set (v w : AnalysisInfo) :
  dict_set (dict_set d k v) k w = dict_set d k w.
Proof.
  induction d as [|[k0 v0] d' IH]; simpl.
  - destruct (Language_eq_dec k k); congruence.
  - destruct (Language_eq_dec k0 k) as [E|N]; simpl.
    + destruct (Language_eq_dec k0 k); congruence.
    + destruct (Language_eq_dec k0 k); [contradiction | now rewrite IH].
Qed.

Lemma dict_set_get (a : AnalysisInfo) :
  dict_get d k = Some a -> dict_set d k a = d.
Proof.
  induction d as [|[k0 v0] d' IH]; simpl.
  - discriminate.
  - destruct (Language_eq_dec k0 k) as [E|N].
    + congruence.
    + intros H. now rewrite IH.
Qed.

Lemma mutate_present (a : AnalysisInfo) (f : AnalysisInfo -> AnalysisInfo) :
  dict_get d k = Some a -> mutate d k f = dict_set d k (f a).
Proof.
  unfold mutate. now intros ->.
Qed.

End DictFacts.

Lemma info_of_set_same (d : Dict) (k : Language) (v : AnalysisInfo) :
  info_of (dict_set d k v) k = v.
Proof.
  unfold info_of. now rewrite dict_get_set_same.
Qed.

Lemma info_of_set_other (d : Dict) (k k' : Language) (v : AnalysisInfo) :
  k <> k' -> info_of (dict_set d k v) k' = info_of d k'.
Proof.
  intros H. unfold info_of. now rewrite dict_get_set_other.
Qed.

(** The inner loop writes through [analysis]: its effect on the
    mapping is the effect of [count_lines] on the stored object. *)
Lemma inner_loop_effect (ftype : Language) (contents : list str) :
  forall (d : Dict) (a : AnalysisInfo),
    dict_get d ftype = Some a ->
    fold_left (fun d line => mutate d ftype (fun a => count_line ftype a line))
              contents d
    = dict_set d ftype (count_lines ftype a contents).
Proof.
  induction contents as [|line rest IH]; intros d a Hget; simpl.
  - symmetry. now apply dict_set_get.
  - rewrite (mutate_present d ftype a _ Hget).
    rewrite (IH _ (count_line ftype a line)) by apply dict_get_set_same.
    apply dict_set_set.
Qed.

(** The body of the outer loop for a file whose language is [ftype]. *)
Lemma analyse_file_resolved (fs : FileSystem) (file : Path) (st : State)
    (ftype : Language) :
  figure_out_file_type file SUPPORTED_LANGUAGES = Some ftype ->
  analyse_file fs file st
  = let d := language_analysis_info st in
    let a0 := incr_files (info_of d ftype) in
    match read_text fs file with
    | None =>
        (mkState (dict_set d ftype a0) (reads st ++ [file]),
         Some (ReadError file))
    | Some text =>
        (mkState (dict_set d ftype (count_lines ftype a0 (contents_of text)))
                 (reads st ++ [file]),
         None)
    end.
Proof.
  intros Hres. unfold analyse_file. rewrite Hres.
  unfold dict_contains, info_of, contents_of.
  set (d := language_analysis_info st).
  destruct (dict_get d ftype) as [a|] eqn:Hget; cbn [negb].
  - rewrite (mutate_present d ftype a _ Hget).
    destruct (read_text fs file) as [text|]; [|reflexivity].
    rewrite (inner_loop_effect ftype _ _ (incr_files a))
      by apply dict_get_set_same.
    now rewrite dict_set_set.
  - rewrite (mutate_present _ ftype AnalysisInfo_new)
      by apply dict_get_set_same.
    rewrite dict_set_set.
    destruct (read_text fs file) as [text|]; [|reflexivity].
    rewrite (inner_loop_effect ftype _ _ (incr_files AnalysisInfo_new))
      by apply dict_get_set_same.
    now rewrite dict_set_set.
Qed.

Lemma analyse_file_unresolved (fs : FileSystem) (file : Path) (st : State) :
  figure_out_file_type file SUPPORTED_LANGUAGES = None ->
  analyse_file fs file st = (st, None).
Proof.
  intros H. unfold analyse_file. now rewrite H.
Qed.

Lemma count_lines_counters (ftype : Language) (contents : list str) :
  forall a : AnalysisInfo,
    lines_counted (count_lines ftype a contents)
    = lines_counted a + length contents
    /\ files (count_lines ftype a contents) = files a.
Proof.
  unfold count_lines.
  induction contents as [|line rest IH]; intros a; simpl.
  - split; [lia | reflexivity].
  - destruct (IH (count_line ftype a line)) as [Hl Hf].
    rewrite Hl, Hf, count_line_kind.
    destruct (kind_of ftype line); unfold lines_counted; simpl; split; lia.
Qed.

(** ** The sum law *)

Lemma lines_counted_from (fs : FileSystem) (lang : Language) (files : list Path) :
  forall st st' : State,
    analyse_files fs files st = (st', None) ->
    lines_counted (info_of (language_analysis_info st') lang)
    = lines_counted (info_of (language_analysis_info st) lang)
      + lines_read fs lang files.
Proof.
  induction files as [|file rest IH]; intros st st' Hrun;
    cbn [analyse_files lines_read] in *.
  - injection Hrun as <-. lia.
  - destruct (figure_out_file_type file SUPPORTED_LANGUAGES) as [ftype|] eqn:Hres.
    + rewrite (analyse_file_resolved fs file st ftype Hres) in Hrun. cbv zeta in Hrun.
      destruct (read_text fs file) as [text|]; [|discriminate].
      rewrite (IH _ _ Hrun). cbn [language_analysis_info].
      destruct (Language_eq_dec ftype lang) as [<-|Hne].
      * rewrite info_of_set_same.
        destruct (count_lines_counters ftype (contents_of text)
                    (incr_files (info_of (language_analysis_info st) ftype)))
          as [-> _].
        unfold contents_of. rewrite length_map.
        unfold lines_counted, incr_files. cbn [blank comment code]. lia.
      * now rewrite info_of_set_other.
    + rewrite (analyse_file_unresolved fs file st Hres) in Hrun.
      now apply IH.
Qed.

(** C4: when the aggregation of a file sequence completes, the blank,
    comment and code counters of every language add up to the number
    of lines read from the files attributed to it. *)
Theorem sum_law :
  forall (fs : FileSystem) (files : list Path) (st : State),
    aggregate fs files = (st, None) ->
    forall lang : Language,
      blank (info_of (language_analysis_info st) lang)
      + comment (info_of (language_analysis_info st) lang)
      + code (info_of (language_analysis_info st) lang)
      = lines_read fs lang files.
Proof.
  intros fs files st Hrun lang.
  apply (lines_counted_from fs lang) in Hrun. exact Hrun.
Qed.

(** ** Files of no registered language *)

(** C6: a file whose path resolves to no registered language leaves
    the state of the aggregation as it is (no entry created, no
    counter incremented, nothing read), and the run over a sequence
    that contains it is the run over the sequence without it. *)
Theorem unrecognised_file_changes_nothing :
  forall (fs : FileSystem) (file : Path),
    figure_out_file_type file SUPPORTED_LANGUAGES = None ->
    (forall st : State, analyse_file fs file st = (st, None))
    /\ (forall (before after : list Path) (st : State),
          analyse_files fs (before ++ file :: after) st
          = analyse_files fs (before ++ after) st).
Proof.
  intros fs file Hres.
  assert (Hstep : forall st, analyse_file fs file st = (st, None))
    by (intros st; now apply analyse_file_unresolved).
  split; [exact Hstep|].
  induction before as [|b before IH]; intros after st;
    cbn [app analyse_files].
  - now rewrite Hstep.
  - destruct (analyse_file fs b st) as [st' [e|]]; [reflexivity | apply IH].
Qed.

(** ** The root path *)

(** C7: when the root path is neither a directory nor a file the
    command raises the error on the root path; no file has been read
    and the mapping has not been created. *)
Theorem invalid_root_raises :
  forall (fs : FileSystem) (root_path : Path),
    is_dir fs root_path = false ->
    is_file fs root_path = false ->
    clocpy fs root_path = Raised (ValueError root_path) [] None.
Proof.
  intros fs root_path Hd Hf. unfold clocpy. now rewrite Hd, Hf.
Qed.

(** ** An empty C++ file *)

Lemma cpp_suffix_resolves (file : Path) :
  suffix file = u ".cpp" ->
  figure_out_file_type file SUPPORTED_LANGUAGES
  = Some (CLIKE (u "C++") (Tup [u ".c++"; u ".cpp"])).
Proof.
  intros Hs. unfold SUPPORTED_LANGUAGES. cbn [figure_out_file_type].
  rewrite Hs. reflexivity.
Qed.

(** C8: the aggregation of a single file of suffix [.cpp] whose text
    is empty gives one entry, for C++, with files = 1 and the three
    line counters at 0. *)
Theorem empty_cpp_file :
  forall (fs : FileSystem) (file : Path),
    suffix file = u ".cpp" ->
    read_text fs file = Some [] ->
    aggregate fs [file]
    = (mkState [(CLIKE (u "C++") (Tup [u ".c++"; u ".cpp"]),
                 mkAnalysisInfo 1 0 0 0)]
               [file],
       None)
    /\ name (CLIKE (u "C++") (Tup [u ".c++"; u ".cpp"])) = u "C++".
Proof.
  intros fs file Hs Hread. split; [|reflexivity].
  unfold aggregate. cbn [analyse_files].
  rewrite (analyse_file_resolved fs file _ _ (cpp_suffix_resolves file Hs)).
  cbv zeta. rewrite Hread. reflexivity.
Qed.

(** ** Determinism *)

Lemma analyse_file_ext (fs1 fs2 : FileSystem) (file : Path) (st : State) :
  read_text fs1 file = read_text fs2 file ->
  analyse_file fs1 file st = analyse_file fs2 file st.
Proof.
  intros H. unfold analyse_file. now rewrite H.
Qed.

Lemma analyse_files_ext (fs1 fs2 : FileSystem) (files : list Path) :
  (forall f, In f files -> read_text fs1 f = read_text fs2 f) ->
  forall st, analyse_files fs1 files st = analyse_files fs2 files st.
Proof.
  induction files as [|file rest IH]; intros Hsame st; cbn [analyse_files].
  - reflexivity.
  - rewrite (analyse_file_ext fs1 fs2 file st) by (apply Hsame; now left).
    destruct (analyse_file fs2 file st) as [st' [e|]]; [reflexivity|].
    apply IH. intros f Hf. apply Hsame. now right.
Qed.

(** C9: two runs of the aggregation over the same sequence of paths,
    the files holding the same contents in both, end with the same
    mapping (and the same outcome). *)
Theorem aggregation_deterministic :
  forall (fs1 fs2 : FileSystem) (files : list Path),
    (forall f, In f files -> read_text fs1 f = read_text fs2 f) ->
    aggregate fs1 files = aggregate fs2 files
    /\ language_analysis_info (fst (aggregate fs1 files))
       = language_analysis_info (fst (aggregate fs2 files)).
Proof.
  intros fs1 fs2 files Hsame.
  assert (H : aggregate fs1 files = aggregate fs2 files)
    by (unfold aggregate; now apply analyse_files_ext).
  split; [exact H | now rewrite H].
Qed.

(** ** A file that cannot be read *)

Lemma analyse_files_app_ok (fs : FileSystem) (before after : list Path) :
  forall st0 st1 : State,
    analyse_files fs before st0 = (st1, None) ->
    analyse_files fs (before ++ after) st0 = analyse_files fs after st1.
Proof.
  induction before as [|b before IH]; intros st0 st1 Hrun;
    cbn [app analyse_files] in *.
  - now injection Hrun as <-.
  - destruct (analyse_file fs b st0) as [st' [e|]]; [discriminate|].
    now apply IH.
Qed.

(** C10: when the text of a file cannot be read after its language
    [ftype] was resolved, the run stops there with the mapping as the
    files before it left it, except for the entry of [ftype]: it is
    there (created at zero if it was not), its files counter is one
    more and its blank, comment and code counters are as before. *)
Theorem read_failure_keeps_files_increment :
  forall (fs : FileSystem) (before after : list Path) (file : Path)
         (st0 st1 : State) (ftype : Language),
    analyse_files fs before st0 = (st1, None) ->
    figure_out_file_type file SUPPORTED_LANGUAGES = Some ftype ->
    read_text fs file = None ->
    exists st' : State,
      analyse_files fs (before ++ file :: after) st0
      = (st', Some (ReadError file))
      /\ (let old := info_of (language_analysis_info st1) ftype in
          dict_get (language_analysis_info st') ftype
          = Some (mkAnalysisInfo (files old + 1) (blank old)
                                 (comment old) (code old)))
      /\ (forall other : Language,
            other <> ftype ->
            dict_get (language_analysis_info st') other
            = dict_get (language_analysis_info st1) other).
Proof.
  intros fs before after file st0 st1 ftype Hrun Hres Hread.
  rewrite (analyse_files_app_ok fs before (file :: after) st0 st1 Hrun).
  cbn [analyse_files].
  rewrite (analyse_file_resolved fs file st1 ftype Hres). cbv zeta.
  rewrite Hread.
  eexists. split; [reflexivity|]. cbn [language_analysis_info]. split.
  - apply dict_get_set_same.
  - intros other Hne. apply dict_get_set_other. congruence.
Qed.

(** ** The report *)

Section Sorting.

Let key (x : Language * AnalysisInfo) : nat := code (snd x).
Let desc (x y : Language * AnalysisInfo) : Prop := key y <= key x.

Lemma insert_desc_perm (x : Language * AnalysisInfo) (l : Dict) :
  Permutation (insert_desc x l) (x :: l).
Proof.
  induction l as [|y l IH]; simpl.
  - apply Permutation_refl.
  - destruct (code (snd y) <=? code (snd x)).
    + apply Permutation_refl.
    + eapply perm_trans; [apply perm_skip, IH | apply perm_swap].
Qed.

Lemma sorted_by_code_reverse_perm (d : Dict) :
  Permutation (sorted_by_code_reverse d) d.
Proof.
  induction d as [|x d IH]; simpl.
  - constructor.
  - eapply perm_trans; [apply insert_desc_perm | now apply perm_skip].
Qed.

Lemma insert_desc_sorted (x : Language * AnalysisInfo) (l : Dict) :
  StronglySorted desc l -> StronglySorted desc (insert_desc x l).
Proof.
  induction l as [|y l IH]; intros Hs; simpl.
  - repeat constructor.
  - inversion Hs as [|? ? Hl Hy]; subst.
    destruct (code (snd y) <=? code (snd x)) eqn:Hc.
    + apply Nat.leb_le in Hc. constructor; [exact Hs|].
      constructor; [exact Hc|].
      eapply Forall_impl; [|exact Hy].
      intros z Hz. unfold desc, key in *. lia.
    + apply Nat.leb_gt in Hc. constructor; [now apply IH|].
      eapply Permutation_Forall;
        [apply Permutation_sym, insert_desc_perm|].
      constructor; [unfold desc, key; lia | exact Hy].
Qed.

Lemma sorted_by_code_reverse_sorted (d : Dict) :
  StronglySorted desc (sorted_by_code_reverse d).
Proof.
  induction d as [|x d IH]; simpl.
  - constructor.
  - now apply insert_desc_sorted.
Qed.

(** Stability: inserting [x] puts it before the items of the same
    code count. *)
Lemma insert_desc_stable (c : nat) (x : Language * AnalysisInfo) (l : Dict) :
  filter (fun y => key y =? c) (insert_desc x l)
  = filter (fun y => key y =? c) (x :: l).
Proof.
  induction l as [|y l IH]; [reflexivity|].
  cbn [insert_desc].
  destruct (code (snd y) <=? code (snd x)) eqn:Hc; [reflexivity|].
  apply Nat.leb_gt in Hc.
  cbn [filter] in *. rewrite IH.
  destruct (key y =? c) eqn:Hy; [|reflexivity].
  apply Nat.eqb_eq in Hy.
  replace (key x =? c) with false; [reflexivity|].
  symmetry. apply Nat.eqb_neq. unfold key in *. lia.
Qed.

Lemma sorted_by_code_reverse_stable (c : nat) (d : Dict) :
  filter (fun y => key y =? c) (sorted_by_code_reverse d)
  = filter (fun y => key y =? c) d.
Proof.
  induction d as [|x d IH]; [reflexivity|].
  cbn [sorted_by_code_reverse]. rewrite insert_desc_stable.
  cbn [filter]. now rewrite IH.
Qed.

Lemma item_data_sorted (l : Dict) :
  StronglySorted desc l ->
  StronglySorted (fun x y => data_code y <= data_code x) (map item_data l).
Proof.
  induction 1 as [|x l Hs IH Hx]; simpl; constructor.
  - exact IH.
  - apply Forall_map. eapply Forall_impl; [|exact Hx].
    intros y Hy. exact Hy.
Qed.

Lemma item_data_filter (c : nat) (l : Dict) :
  filter (fun x => data_code x =? c) (map item_data l)
  = map item_data (filter (fun y => key y =? c) l).
Proof.
  induction l as [|x l IH]; [reflexivity|].
  cbn [map filter]. rewrite IH.
  change (data_code (item_data x)) with (key x).
  now destruct (key x =? c).
Qed.

End Sorting.

(** The loop over the sorted items: one row per item, in order, and
    each total grows by the sum of its column. *)
Lemma add_rows_spec (len : nat) (items : Dict) :
  forall (index : nat) (table : list Row) (t : Totals),
    exists rows : list Row,
      fst (add_rows len index items table t) = table ++ rows
      /\ map row_data rows = map item_data items
      /\ snd (add_rows len index items table t)
         = mkTotals (total_files t + column 0 rows)
                    (total_blanks t + column 1 rows)
                    (total_comments t + column 2 rows)
                    (total_code t + column 3 rows).
Proof.
  induction items as [|[ftype analysis] rest IH]; intros index table t.
  - exists []. cbn. rewrite app_nil_r, !Nat.add_0_r.
    now destruct t.
  - cbn [add_rows].
    destruct (IH (S index)
                 (table ++ [mkRow (name ftype)
                              [files analysis; blank analysis;
                               comment analysis; code analysis]
                              (index =? len - 1)])
                 (mkTotals (total_files t + files analysis)
                           (total_blanks t + blank analysis)
                           (total_comments t + comment analysis)
                           (total_code t + code analysis)))
      as [rows [Ht [Hd Hs]]].
    eexists (_ :: rows). rewrite Ht, Hs. split; [|split].
    + now rewrite <- app_assoc.
    + cbn [map]. now rewrite Hd.
    + unfold column.
      cbn [map list_sum fold_right cells nth total_files total_blanks
           total_comments total_code].
      now rewrite !Nat.add_assoc.
Qed.

(** C5: the table is the rows of the languages followed by the one
    [SUM] row; the language rows are the items of the mapping, by
    non-increasing code count, rows of equal code count in the order
    of the mapping; each of the four cells of the [SUM] row is the sum
    of its column over the language rows. *)
Theorem report_sorted_and_summed :
  forall d : Dict,
    exists (rows : list Row) (sum : Row),
      build_table d = rows ++ [sum]
      /\ label sum = u "SUM"
      /\ Permutation (map row_data rows) (map item_data d)
      /\ StronglySorted (fun x y => data_code y <= data_code x)
                        (map row_data rows)
      /\ (forall c : nat,
            filter (fun x => data_code x =? c) (map row_data rows)
            = filter (fun x => data_code x =? c) (map item_data d))
      /\ cells sum
         = [column 0 rows; column 1 rows; column 2 rows; column 3 rows].
Proof.
  intros d. unfold build_table.
  destruct (add_rows_spec (length d) (sorted_by_code_reverse d) 0 []
                          (mkTotals 0 0 0 0))
    as [rows [Ht [Hd Hs]]].
  destruct (add_rows (length d) 0 (sorted_by_code_reverse d) []
                     (mkTotals 0 0 0 0)) as [table t].
  cbn [fst snd app] in Ht, Hs. subst table t.
  eexists rows, _. split; [reflexivity|]. split; [reflexivity|].
  rewrite Hd. split; [|split; [|split]].
  - apply Permutation_map, sorted_by_code_reverse_perm.
  - apply item_data_sorted, sorted_by_code_reverse_sorted.
  - intros c. rewrite !item_data_filter.
    now rewrite sorted_by_code_reverse_stable.
  - reflexivity.
Qed.

(** ** The counters, one by one *)

Lemma info_ext (a b : AnalysisInfo) :
  files a = files b -> blank a = blank b ->
  comment a = comment b -> code a = code b -> a = b.
Proof.
  destruct a, b; simpl; intros; subst; reflexivity.
Qed.

Lemma count_kind_cons (ftype : Language) (k : LineKind) (line : str)
    (rest : list str) :
  count_kind ftype k (line :: rest)
  = (if LineKind_eqb (kind_of ftype line) k then 1 else 0)
    + count_kind ftype k rest.
Proof.
  unfold count_kind. cbn [filter].
  now destruct (LineKind_eqb (kind_of ftype line) k).
Qed.

(** The inner loop adds to each line counter the number of lines of
    its class and leaves the files counter alone. *)
Lemma count_lines_fields (ftype : Language) (contents : list str) :
  forall a : AnalysisInfo,
    count_lines ftype a contents
    = mkAnalysisInfo (files a)
        (blank a + count_kind ftype Blank contents)
        (comment a + count_kind ftype Comment contents)
        (code a + count_kind ftype Code contents).
Proof.
  unfold count_lines.
  induction contents as [|line rest IH]; intros a; cbn [fold_left].
  - apply info_ext; cbn; lia.
  - rewrite IH, count_line_kind, !count_kind_cons.
    destruct (kind_of ftype line); apply info_ext; cbn; lia.
Qed.

(** The body of the outer loop on a recognised file, whether its text
    can be read or not. *)
Lemma analyse_file_step (fs : FileSystem) (file : Path) (st : State)
    (ftype : Language) :
  figure_out_file_type file SUPPORTED_LANGUAGES = Some ftype ->
  analyse_file fs file st
  = (mkState
       (dict_set (language_analysis_info st) ftype
          (mkAnalysisInfo
             (files (info_of (language_analysis_info st) ftype) + 1)
             (blank (info_of (language_analysis_info st) ftype)
              + kind_lines_in fs ftype Blank file)
             (comment (info_of (language_analysis_info st) ftype)
              + kind_lines_in fs ftype Comment file)
             (code (info_of (language_analysis_info st) ftype)
              + kind_lines_in fs ftype Code file)))
       (reads st ++ [file]),
     match read_text fs file with
     | Some _ => None
     | None => Some (ReadError file)
     end).
Proof.
  intros Hres. rewrite (analyse_file_resolved fs file st ftype Hres).
  cbv zeta. unfold kind_lines_in.
  destruct (read_text fs file) as [text|].
  - rewrite count_lines_fields. reflexivity.
  - f_equal. f_equal. f_equal. apply info_ext; cbn; lia.
Qed.

Lemma attributed_cons_length (lang : Language) (file : Path)
    (rest : list Path) :
  length (filter (attributed lang) (file :: rest))
  = (if attributed lang file then 1 else 0)
    + length (filter (attributed lang) rest).
Proof.
  cbn [filter]. now destruct (attributed lang file).
Qed.

Lemma kind_lines_cons (fs : FileSystem) (lang : Language) (k : LineKind)
    (file : Path) (rest : list Path) :
  kind_lines fs lang k (file :: rest)
  = (if attributed lang file then kind_lines_in fs lang k file else 0)
    + kind_lines fs lang k rest.
Proof.
  unfold kind_lines. cbn [filter].
  now destruct (attributed lang file).
Qed.

Lemma tally_from (fs : FileSystem) (lang : Language) (files0 : list Path) :
  forall st st' : State,
    analyse_files fs files0 st = (st', None) ->
    info_of (language_analysis_info st') lang
    = mkAnalysisInfo
        (files (info_of (language_analysis_info st) lang)
         + length (filter (attributed lang) files0))
        (blank (info_of (language_analysis_info st) lang)
         + kind_lines fs lang Blank files0)
        (comment (info_of (language_analysis_info st) lang)
         + kind_lines fs lang Comment files0)
        (code (info_of (language_analysis_info st) lang)
         + kind_lines fs lang Code files0).
Proof.
  induction files0 as [|file rest IH]; intros st st' Hrun;
    cbn [analyse_files] in Hrun.
  - injection Hrun as <-. apply info_ext; cbn; lia.
  - rewrite attributed_cons_length, !kind_lines_cons.
    change (attributed lang file)
      with (match figure_out_file_type file SUPPORTED_LANGUAGES with
            | Some ftype => if Language_eq_dec ftype lang then true else false
            | None => false
            end).
    destruct (figure_out_file_type file SUPPORTED_LANGUAGES) as [ftype|]
      eqn:Hres.
    + rewrite (analyse_file_step fs file st ftype Hres) in Hrun.
      destruct (read_text fs file) as [text|] eqn:Hread; [|discriminate].
      rewrite (IH _ _ Hrun). cbn [language_analysis_info].
      destruct (Language_eq_dec ftype lang) as [<-|Hne].
      * rewrite info_of_set_same. apply info_ext; cbn [files blank comment code length]; lia.
      * rewrite info_of_set_other by exact Hne. apply info_ext; cbn [files blank comment code length]; lia.
    + rewrite (analyse_file_unresolved fs file st Hres) in Hrun.
      rewrite (IH _ _ Hrun). apply info_ext; cbn [files blank comment code length]; lia.
Qed.

(** X1: when the aggregation completes, the four counters of a
    language are the number of files attributed to it and the numbers
    of blank, comment and code lines in those files. *)
Theorem counters_are_tallies :
  forall (fs : FileSystem) (files0 : list Path) (st : State),
    aggregate fs files0 = (st, None) ->
    forall lang : Language,
      info_of (language_analysis_info st) lang
      = mkAnalysisInfo
          (length (filter (attributed lang) files0))
          (kind_lines fs lang Blank files0)
          (kind_lines fs lang Comment files0)
          (kind_lines fs lang Code files0).
Proof.
  intros fs files0 st Hrun lang.
  rewrite (tally_from fs lang files0 _ _ Hrun). reflexivity.
Qed.

(** ** When the run completes *)

Lemma completes_iff_from (fs : FileSystem) (files0 : list Path) :
  forall st : State,
    snd (analyse_files fs files0 st) = None
    <-> (forall file, In file files0 -> recognised file = true ->
                      read_text fs file <> None).
Proof.
  induction files0 as [|file rest IH]; intros st; cbn [analyse_files].
  - split; [intros _ f [] | reflexivity].
  - unfold recognised in *.
    destruct (figure_out_file_type file SUPPORTED_LANGUAGES) as [ftype|]
      eqn:Hres.
    + rewrite (analyse_file_step fs file st ftype Hres).
      destruct (read_text fs file) as [text|] eqn:Hread.
      * rewrite IH. split.
        -- intros H f [<-|Hin] Hrec; [rewrite Hres in Hrec; congruence|].
           now apply H.
        -- intros H f Hin. apply H. now right.
      * cbn [snd]. split; [discriminate|].
        intros H. exfalso. apply (H file); [now left | now rewrite Hres | exact Hread].
    + rewrite (analyse_file_unresolved fs file st Hres). rewrite IH. split.
      * intros H f [<-|Hin] Hrec; [rewrite Hres in Hrec; discriminate|].
        now apply H.
      * intros H f Hin. apply H. now right.
Qed.

(** X2: the aggregation completes exactly when the text of every
    recognised file of the sequence can be read; a file of no
    registered language never stops it. *)
Theorem completes_iff_recognised_files_readable :
  forall (fs : FileSystem) (files0 : list Path),
    snd (aggregate fs files0) = None
    <-> (forall file, In file files0 -> recognised file = true ->
                      read_text fs file <> None).
Proof.
  intros fs files0. apply completes_iff_from.
Qed.

(** ** The order of the files *)

Lemma list_sum_step (x : nat) (l : list nat) :
  list_sum (x :: l) = x + list_sum l.
Proof.
  reflexivity.
Qed.

Lemma filter_length_perm {A : Type} (p : A -> bool) (l l' : list A) :
  Permutation l l' -> length (filter p l) = length (filter p l').
Proof.
  induction 1 as [|x l l' _ IH|x y l|l l' l'' _ IH1 _ IH2]; cbn [filter].
  - reflexivity.
  - destruct (p x); cbn [length]; now rewrite IH.
  - destruct (p x), (p y); reflexivity.
  - now rewrite IH1.
Qed.

Lemma filter_sum_perm {A : Type} (p : A -> bool) (f : A -> nat)
    (l l' : list A) :
  Permutation l l' ->
  list_sum (map f (filter p l)) = list_sum (map f (filter p l')).
Proof.
  induction 1 as [|x l l' _ IH|x y l|l l' l'' _ IH1 _ IH2]; cbn [filter].
  - reflexivity.
  - destruct (p x); cbn [map]; rewrite ?list_sum_step; now rewrite IH.
  - destruct (p x), (p y); cbn [map]; rewrite ?list_sum_step; lia.
  - now rewrite IH1.
Qed.

(** X3: the counters of every language do not depend on the order in
    which the files come: if the run over a sequence completes, so
    does the run over any rearrangement of it, with the same counters
    for every language. *)
Theorem counters_independent_of_file_order :
  forall (fs : FileSystem) (files1 files2 : list Path) (st1 : State),
    Permutation files1 files2 ->
    aggregate fs files1 = (st1, None) ->
    exists st2 : State,
      aggregate fs files2 = (st2, None)
      /\ forall lang : Language,
           info_of (language_analysis_info st2) lang
           = info_of (language_analysis_info st1) lang.
Proof.
  intros fs files1 files2 st1 Hperm Hrun.
  assert (Hok : snd (aggregate fs files2) = None).
  { apply completes_iff_from. intros file Hin.
    assert (H1 : snd (aggregate fs files1) = None) by now rewrite Hrun.
    apply (proj1 (completes_iff_from fs files1 _) H1).
    apply Permutation_in with files2; [now apply Permutation_sym | exact Hin]. }
  destruct (aggregate fs files2) as [st2 r] eqn:Hrun2. cbn [snd] in Hok.
  subst r. exists st2. split; [reflexivity|]. intros lang.
  rewrite (tally_from fs lang files2 _ _ Hrun2).
  rewrite (tally_from fs lang files1 _ _ Hrun).
  unfold kind_lines.
  rewrite (filter_length_perm (attributed lang) files1 files2 Hperm).
  rewrite !(filter_sum_perm (attributed lang) _ files1 files2 Hperm).
  reflexivity.
Qed.

(** ** The keys of the mapping *)

Lemma keys_set_present (d : Dict) (k : Language) (v : AnalysisInfo) :
  In k (keys d) -> keys (dict_set d k v) = keys d.
Proof.
  unfold keys. induction d as [|[k0 v0] d IH]; cbn [map fst dict_set].
  - intros [].
  - intros Hin. destruct (Language_eq_dec k0 k) as [E|N]; [reflexivity|].
    cbn [map fst]. f_equal. apply IH.
    destruct Hin as [E|Hin]; [contradiction | exact Hin].
Qed.

Lemma keys_set_absent (d : Dict) (k : Language) (v : AnalysisInfo) :
  ~ In k (keys d) -> keys (dict_set d k v) = keys d ++ [k].
Proof.
  unfold keys. induction d as [|[k0 v0] d IH]; cbn [map fst dict_set app].
  - reflexivity.
  - intros Hnin. destruct (Language_eq_dec k0 k) as [E|N].
    + exfalso. apply Hnin. now left.
    + cbn [map fst]. f_equal. apply IH. intros Hin. apply Hnin. now right.
Qed.

Lemma keys_set_in (d : Dict) (k : Language) (v : AnalysisInfo)
    (l : Language) :
  In l (keys (dict_set d k v)) <-> In l (keys d) \/ l = k.
Proof.
  destruct (in_dec Language_eq_dec k (keys d)) as [Hin|Hnin].
  - rewrite (keys_set_present d k v Hin). split; [now left|].
    intros [H| ->]; assumption.
  - rewrite (keys_set_absent d k v Hnin), in_app_iff. cbn [In].
    split; intros [H|H]; auto;
      try (destruct H as [<-|[]]; now right);
      try (subst l; right; now left).
Qed.

Lemma keys_set_nodup (d : Dict) (k : Language) (v : AnalysisInfo) :
  NoDup (keys d) -> NoDup (keys (dict_set d k v)).
Proof.
  intros Hnd. destruct (in_dec Language_eq_dec k (keys d)) as [Hin|Hnin].
  - now rewrite (keys_set_present d k v Hin).
  - rewrite (keys_set_absent d k v Hnin).
    apply Permutation_NoDup with (k :: keys d).
    + apply Permutation_cons_append.
    + now constructor.
Qed.

Lemma figure_out_in (file : Path) (langs : list Language) (lang : Language) :
  figure_out_file_type file langs = Some lang -> In lang langs.
Proof.
  induction langs as [|l langs IH]; cbn [figure_out_file_type].
  - discriminate.
  - destruct (endswith (suffix file) (file_suffix l)).
    + intros H. injection H as <-. now left.
    + intros H. right. now apply IH.
Qed.

Lemma keys_from (fs : FileSystem) (files0 : list Path) :
  forall (st st' : State) (r : option Exn),
    analyse_files fs files0 st = (st', r) ->
    (NoDup (keys (language_analysis_info st))
     -> NoDup (keys (language_analysis_info st')))
    /\ (forall lang,
          In lang (keys (language_analysis_info st')) ->
          In lang (keys (language_analysis_info st))
          \/ exists file,
               In file files0
               /\ figure_out_file_type file SUPPORTED_LANGUAGES = Some lang)
    /\ (forall lang,
          In lang (keys (language_analysis_info st)) ->
          In lang (keys (language_analysis_info st')))
    /\ (r = None ->
        forall file lang,
          In file files0 ->
          figure_out_file_type file SUPPORTED_LANGUAGES = Some lang ->
          In lang (keys (language_analysis_info st'))).
Proof.
  induction files0 as [|file rest IH]; intros st st' r Hrun;
    cbn [analyse_files] in Hrun.
  - injection Hrun as <- <-. repeat split; auto. intros _ f l [].
  - destruct (figure_out_file_type file SUPPORTED_LANGUAGES) as [ftype|]
      eqn:Hres.
    + rewrite (analyse_file_step fs file st ftype Hres) in Hrun.
      set (d1 := dict_set (language_analysis_info st) ftype _) in Hrun.
      assert (Hin1 : forall l, In l (keys d1)
                <-> In l (keys (language_analysis_info st)) \/ l = ftype)
        by (intros l; apply keys_set_in).
      assert (Hnd1 : NoDup (keys (language_analysis_info st))
                     -> NoDup (keys d1))
        by apply keys_set_nodup.
      destruct (read_text fs file) as [text|].
      * destruct (IH _ _ _ Hrun) as [Hnd [Hsub [Hkeep Hall]]].
        cbn [language_analysis_info] in *.
        split; [auto|]. split; [|split].
        -- intros lang Hl. destruct (Hsub lang Hl) as [H|[f [Hf Hr]]].
           ++ apply Hin1 in H. destruct H as [H| ->]; [now left|].
              right. exists file. split; [now left | exact Hres].
           ++ right. exists f. split; [now right | exact Hr].
        -- intros lang Hl. apply Hkeep, Hin1. now left.
        -- intros Hr f lang [<-|Hf] Hfl.
           ++ apply Hkeep, Hin1. right. congruence.
           ++ now apply (Hall Hr f).
      * injection Hrun as <- <-. cbn [language_analysis_info].
        split; [auto|]. split; [|split].
        -- intros lang Hl. apply Hin1 in Hl. destruct Hl as [H| ->];
             [now left|].
           right. exists file. split; [now left | exact Hres].
        -- intros lang Hl. apply Hin1. now left.
        -- discriminate.
    + rewrite (analyse_file_unresolved fs file st Hres) in Hrun.
      destruct (IH _ _ _ Hrun) as [Hnd [Hsub [Hkeep Hall]]].
      split; [auto|]. split; [|split].
      * intros lang Hl. destruct (Hsub lang Hl) as [H|[f [Hf Hr]]];
          [now left|].
        right. exists f. split; [now right | exact Hr].
      * exact Hkeep.
      * intros Hr f lang [<-|Hf] Hfl; [congruence|].
        now apply (Hall Hr f).
Qed.

(** X4: whatever the outcome, the mapping holds every language at
    most once, and only registered languages to which a file of the
    sequence resolved; when the run completes it holds every such
    language. *)
Theorem mapping_keys :
  forall (fs : FileSystem) (files0 : list Path) (st : State)
         (r : option Exn),
    aggregate fs files0 = (st, r) ->
    NoDup (keys (language_analysis_info st))
    /\ (forall lang,
          In lang (keys (language_analysis_info st)) ->
          In lang SUPPORTED_LANGUAGES
          /\ exists file,
               In file files0
               /\ figure_out_file_type file SUPPORTED_LANGUAGES = Some lang)
    /\ (r = None ->
        forall file lang,
          In file files0 ->
          figure_out_file_type file SUPPORTED_LANGUAGES = Some lang ->
          In lang (keys (language_analysis_info st))).
Proof.
  intros fs files0 st r Hrun.
  destruct (keys_from fs files0 _ _ _ Hrun) as [Hnd [Hsub [_ Hall]]].
  cbn [language_analysis_info keys map] in Hnd, Hsub.
  split; [apply Hnd; constructor|]. split; [|exact Hall].
  intros lang Hl. destruct (Hsub lang Hl) as [[]|[f [Hf Hr]]].
  split; [now apply figure_out_in with f | now exists f].
Qed.

(** ** The files that are read *)

Lemma recognised_resolved (file : Path) (ftype : Language) :
  figure_out_file_type file SUPPORTED_LANGUAGES = Some ftype ->
  recognised file = true.
Proof.
  unfold recognised. now intros ->.
Qed.

Lemma recognised_unresolved (file : Path) :
  figure_out_file_type file SUPPORTED_LANGUAGES = None ->
  recognised file = false.
Proof.
  unfold recognised. now intros ->.
Qed.



(** X6: once a recognised file cannot be read, the files that follow
    it play no part: the run ends with the error on that file and in
    the state it would have reached had the sequence stopped there. *)
Theorem nothing_after_read_failure :
  forall (fs : FileSystem) (before after : list Path) (file : Path),
    snd (aggregate fs before) = None ->
    recognised file = true ->
    read_text fs file = None ->
    aggregate fs (before ++ file :: after) = aggregate fs (before ++ [file])
    /\ snd (aggregate fs (before ++ file :: after)) = Some (ReadError file).
Proof.
  intros fs before after file Hok Hrec Hread.
  unfold aggregate in *.
  destruct (analyse_files fs before (mkState [] [])) as [st1 r] eqn:Hrun.
  cbn [snd] in Hok. subst r.
  rewrite !(analyse_files_app_ok fs before _ _ st1 Hrun).
  cbn [analyse_files]. unfold recognised in Hrec.
  destruct (figure_out_file_type file SUPPORTED_LANGUAGES) as [ftype|]
    eqn:Hres; [|discriminate].
  rewrite (analyse_file_step fs file st1 ftype Hres), Hread.
  split; reflexivity.
Qed.

(** ** Counters only grow *)

Lemma counters_grow_from (fs : FileSystem) (lang : Language)
    (files0 : list Path) :
  forall st : State,
    files (info_of (language_analysis_info st) lang)
    <= files (info_of (language_analysis_info
                         (fst (analyse_files fs files0 st))) lang)
    /\ blank (info_of (language_analysis_info st) lang)
       <= blank (info_of (language_analysis_info
                            (fst (analyse_files fs files0 st))) lang)
    /\ comment (info_of (language_analysis_info st) lang)
       <= comment (info_of (language_analysis_info
                              (fst (analyse_files fs files0 st))) lang)
    /\ code (info_of (language_analysis_info st) lang)
       <= code (info_of (language_analysis_info
                           (fst (analyse_files fs files0 st))) lang).
Proof.
  induction files0 as [|file rest IH]; intros st; cbn [analyse_files].
  - cbn [fst]. lia.
  - destruct (figure_out_file_type file SUPPORTED_LANGUAGES) as [ftype|]
      eqn:Hres.
    + rewrite (analyse_file_step fs file st ftype Hres).
      set (st1 := mkState _ _).
      assert (H1 : files (info_of (language_analysis_info st) lang)
                   <= files (info_of (language_analysis_info st1) lang)
                   /\ blank (info_of (language_analysis_info st) lang)
                      <= blank (info_of (language_analysis_info st1) lang)
                   /\ comment (info_of (language_analysis_info st) lang)
                      <= comment (info_of (language_analysis_info st1) lang)
                   /\ code (info_of (language_analysis_info st) lang)
                      <= code (info_of (language_analysis_info st1) lang)).
      { subst st1. cbn [language_analysis_info].
        destruct (Language_eq_dec ftype lang) as [<-|Hne].
        - rewrite info_of_set_same. cbn [files blank comment code]. lia.
        - rewrite info_of_set_other by exact Hne. lia. }
      destruct (read_text fs file) as [text|].
      * specialize (IH st1). lia.
      * cbn [fst]. exact H1.
    + rewrite (analyse_file_unresolved fs file st Hres). apply IH.
Qed.

(** X7: from any state and whatever the outcome, a run over a file
    sequence never lowers a counter of any language and never removes
    a language from the mapping. *)
Theorem counters_never_decrease :
  forall (fs : FileSystem) (files0 : list Path) (st : State)
         (lang : Language),
    let st' := fst (analyse_files fs files0 st) in
    files (info_of (language_analysis_info st) lang)
    <= files (info_of (language_analysis_info st') lang)
    /\ blank (info_of (language_analysis_info st) lang)
       <= blank (info_of (language_analysis_info st') lang)
    /\ comment (info_of (language_analysis_info st) lang)
       <= comment (info_of (language_analysis_info st') lang)
    /\ code (info_of (language_analysis_info st) lang)
       <= code (info_of (language_analysis_info st') lang)
    /\ (In lang (keys (language_analysis_info st))
        -> In lang (keys (language_analysis_info st'))).
Proof.
  intros fs files0 st lang st'.
  pose proof (counters_grow_from fs lang files0 st) as H.
  fold st' in H. repeat split; try apply H.
  subst st'.
  destruct (analyse_files fs files0 st) as [st2 r] eqn:Hrun.
  destruct (keys_from fs files0 _ _ _ Hrun) as [_ [_ [Hkeep _]]].
  apply Hkeep.
Qed.

(** ** Suffixes are matched exactly *)

Lemma rfind_dot_none (s : str) : rfind_dot s = None -> ~ In 46%N s.
Proof.
  induction s as [|c s IH]; cbn [rfind_dot In]; [tauto|].
  destruct (rfind_dot s) as [i|]; [discriminate|].
  destruct (c =? 46)%N eqn:Hc; [discriminate|].
  apply N.eqb_neq in Hc. intros _ [H|H]; [congruence | now apply IH].
Qed.

Lemma rfind_dot_some (s : str) :
  forall i, rfind_dot s = Some i ->
            exists t, skipn i s = 46%N :: t /\ ~ In 46%N t.
Proof.
  induction s as [|c s IH]; intros i; cbn [rfind_dot]; [discriminate|].
  destruct (rfind_dot s) as [j|] eqn:Hj.
  - intros H. injection H as <-. cbn [skipn]. now apply IH.
  - destruct (c =? 46)%N eqn:Hc; [|discriminate].
    apply N.eqb_eq in Hc. intros H. injection H as <-. subst c.
    exists s. split; [reflexivity | now apply rfind_dot_none].
Qed.

(** The suffix of a path is empty, or a dot followed by characters
    that are not dots. *)
Lemma suffix_shape (p : Path) :
  suffix p = [] \/ exists t, suffix p = 46%N :: t /\ ~ In 46%N t.
Proof.
  unfold suffix.
  destruct (rfind_dot (path_name p)) as [i|] eqn:Hi; [|now left].
  destruct ((0 <? i) && (i <? length (path_name p) - 1)); [|now left].
  right. now apply rfind_dot_some.
Qed.

Lemma ends_with_dotted_exact (p : Path) (ext : str) :
  dotted ext -> ends_with (suffix p) ext -> suffix p = ext.
Proof.
  intros [e ->] [pre H].
  destruct (suffix_shape p) as [E|[t [E Hn]]]; rewrite E in *.
  - destruct pre; discriminate.
  - destruct pre as [|c pre]; [exact H|].
    cbn [app] in H. injection H as _ ->.
    exfalso. apply Hn. apply in_elt.
Qed.

Lemma registry_extensions_dotted (lang : Language) (ext : str) :
  In lang SUPPORTED_LANGUAGES ->
  In ext (alternatives (file_suffix lang)) ->
  dotted ext.
Proof.
  unfold SUPPORTED_LANGUAGES. cbn [In]. intros Hl He.
  repeat destruct Hl as [<-|Hl]; try contradiction;
    cbn [alternatives file_suffix CLIKE get_factory In] in He;
    repeat destruct He as [<-|He]; try contradiction;
    vm_compute; eexists; reflexivity.
Qed.

(** X8: with the registered extensions, a path resolves to a language
    exactly when its suffix is equal to one of the extensions of that
    language: characters before the dot of the suffix cannot make a
    longer suffix match, and no suffix belongs to two entries. *)
Theorem resolution_is_exact_suffix_match :
  forall (file : Path) (lang : Language),
    figure_out_file_type file SUPPORTED_LANGUAGES = Some lang
    <-> In lang SUPPORTED_LANGUAGES
        /\ In (suffix file) (alternatives (file_suffix lang)).
Proof.
  intros file lang. split.
  - intros Hres.
    pose proof (figure_out_in file SUPPORTED_LANGUAGES lang Hres) as Hin.
    split; [exact Hin|].
    pose proof (figure_out_first_match file SUPPORTED_LANGUAGES) as H.
    rewrite Hres in H. destruct H as [_ [_ [_ [[ext [He Hends]] _]]]].
    rewrite (ends_with_dotted_exact file ext); [exact He| |exact Hends].
    now apply registry_extensions_dotted with lang.
  - unfold SUPPORTED_LANGUAGES. cbn [In figure_out_file_type].
    intros [Hl He].
    repeat destruct Hl as [<-|Hl]; try contradiction;
      cbn [alternatives file_suffix CLIKE get_factory In] in He;
      repeat destruct He as [<-|He]; try contradiction;
      reflexivity.
Qed.

(** ** Blank lines *)

Lemma lstrip_nil_iff (s : str) :
  lstrip s = [] <-> forallb is_space s = true.
Proof.
  induction s as [|c s IH]; cbn [lstrip forallb]; [tauto|].
  destruct (is_space c); cbn [andb]; [exact IH|].
  split; discriminate.
Qed.

Lemma lstrip_head (s : str) (c : char) (t : str) :
  lstrip s = c :: t -> is_space c = false.
Proof.
  induction s as [|a s IH]; cbn [lstrip]; [discriminate|].
  destruct (is_space a) eqn:Ha; [exact IH|].
  intros H. injection H as <- _. exact Ha.
Qed.

Lemma strip_nil_iff (raw : str) :
  strip raw = [] <-> forallb is_space raw = true.
Proof.
  unfold strip, rstrip. split.
  - intros H.
    assert (H1 : lstrip (rev (lstrip raw)) = []).
    { destruct (lstrip (rev (lstrip raw))); [reflexivity|].
      apply (f_equal (@length _)) in H. rewrite length_rev in H.
      discriminate. }
    apply lstrip_nil_iff in H1.
    destruct (lstrip raw) as [|c t] eqn:Hl.
    + now apply lstrip_nil_iff.
    + pose proof (lstrip_head raw c t Hl) as Hc.
      rewrite forallb_forall in H1.
      rewrite (H1 c) in Hc; [discriminate|].
      apply in_rev. rewrite rev_involutive. now left.
  - intros H. apply lstrip_nil_iff in H. now rewrite H.
Qed.

(** X9: for every language, a line of the file is counted as blank
    exactly when all its characters are whitespace (the empty line
    included). *)
Theorem blank_iff_only_whitespace :
  forall (ftype : Language) (raw : str) (analysis : AnalysisInfo),
    count_line ftype analysis (strip raw) = incr_blank analysis
    <-> forallb is_space raw = true.
Proof.
  intros ftype raw analysis. rewrite <- strip_nil_iff, count_line_kind.
  change (incr_blank analysis) with (bump Blank analysis).
  unfold kind_of. split.
  - intros H. apply bump_injective in H.
    destruct (truthy (strip raw)) eqn:Ht; cbn [negb] in H.
    + destruct (startswith (strip raw) (comment_line_prefixes ftype));
        discriminate.
    + now apply truthy_false.
  - intros ->. reflexivity.
Qed.

(** ** Comment lines *)

Lemma count_line_comment_iff (ftype : Language) (a : AnalysisInfo)
    (line : str) :
  line <> [] ->
  (count_line ftype a line = incr_comment a
   <-> has_comment_prefix ftype line).
Proof.
  intros Hne. rewrite count_line_kind.
  change (incr_comment a) with (bump Comment a).
  unfold kind_of, has_comment_prefix. rewrite <- startswith_spec.
  destruct (truthy line) eqn:Ht; cbn [negb].
  - destruct (startswith line (comment_line_prefixes ftype)).
    + split; reflexivity.
    + split; [|discriminate]. intros H. apply bump_injective in H.
      discriminate.
  - apply truthy_false in Ht. contradiction.
Qed.

(** X10: in the Python entry of the registry a stripped line that is
    not empty is counted as a comment exactly when it starts with the
    hash sign. *)
Theorem python_comment_line :
  forall (lang : Language),
    In lang SUPPORTED_LANGUAGES ->
    name lang = u "Python" ->
    forall (a : AnalysisInfo) (line : str),
      line <> [] ->
      (count_line lang a line = incr_comment a
       <-> starts_with line (u "#")).
Proof.
  unfold SUPPORTED_LANGUAGES. cbn [In]. intros lang Hl Hname a line Hne.
  rewrite (count_line_comment_iff lang a line Hne).
  repeat destruct Hl as [<-|Hl]; try contradiction;
    try (vm_compute in Hname; discriminate).
  unfold has_comment_prefix. cbn [comment_line_prefixes alternatives In].
  split.
  - intros [p [[<-|[]] Hp]]. exact Hp.
  - intros H. exists (u "#"). split; [now left | exact H].
Qed.

(** ** The shape of the table *)

Lemma add_rows_flags (len : nat) (items : Dict) :
  forall (index : nat) (table : list Row) (t : Totals),
    exists rows : list Row,
      fst (add_rows len index items table t) = table ++ rows
      /\ length rows = length items
      /\ forall j r, nth_error rows j = Some r ->
                     end_section r = (index + j =? len - 1).
Proof.
  induction items as [|[ftype analysis] rest IH]; intros index table t.
  - exists []. cbn [add_rows fst length]. rewrite app_nil_r.
    split; [reflexivity|]. split; [reflexivity|].
    intros [|j] r H; discriminate.
  - cbn [add_rows].
    destruct (IH (S index)
                 (table ++ [mkRow (name ftype)
                              [files analysis; blank analysis;
                               comment analysis; code analysis]
                              (index =? len - 1)])
                 (mkTotals (total_files t + files analysis)
                           (total_blanks t + blank analysis)
                           (total_comments t + comment analysis)
                           (total_code t + code analysis)))
      as [rows [Ht [Hlen Hflag]]].
    eexists (_ :: rows). rewrite Ht. split; [|split].
    + now rewrite <- app_assoc.
    + cbn [length]. now rewrite Hlen.
    + intros [|j] r H; cbn [nth_error] in H.
      * injection H as <-. cbn [end_section]. now rewrite Nat.add_0_r.
      * rewrite (Hflag j r H). f_equal. lia.
Qed.

(** X11: the table has one row per language of the mapping and one
    more, and the [end_section] flag is set on the last language row
    and on no other row; with an empty mapping no row has it. *)
Theorem table_shape :
  forall d : Dict,
    length (build_table d) = length d + 1
    /\ forall (i : nat) (r : Row),
         nth_error (build_table d) i = Some r ->
         (end_section r = true <-> S i = length d).
Proof.
  intros d. unfold build_table.
  destruct (add_rows_flags (length d) (sorted_by_code_reverse d) 0 []
                           (mkTotals 0 0 0 0))
    as [rows [Ht [Hlen Hflag]]].
  destruct (add_rows (length d) 0 (sorted_by_code_reverse d) []
                     (mkTotals 0 0 0 0)) as [table t].
  cbn [fst app] in Ht. subst table.
  rewrite (Permutation_length (sorted_by_code_reverse_perm d)) in Hlen.
  split.
  - rewrite length_app, Hlen. reflexivity.
  - intros i r H. destruct (Nat.lt_ge_cases i (length rows)) as [Hi|Hi].
    + rewrite nth_error_app1 in H by exact Hi.
      rewrite (Hflag i r H). cbn [Nat.add]. rewrite Nat.eqb_eq. lia.
    + rewrite nth_error_app2 in H by exact Hi.
      destruct (i - length rows) as [|j]; cbn [nth_error] in H.
      * injection H as <-. cbn [end_section]. split; [discriminate | lia].
      * destruct j; discriminate.
Qed.

(** ** The SUM row of a run *)

Lemma list_sum_perm (l l' : list nat) :
  Permutation l l' -> list_sum l = list_sum l'.
Proof.
  induction 1 as [|x l l' _ IH|x y l|l l' l'' _ IH1 _ IH2];
    rewrite ?list_sum_step; lia.
Qed.

Lemma counter_sum_perm (f : AnalysisInfo -> nat) (d d' : Dict) :
  Permutation d d' -> counter_sum f d = counter_sum f d'.
Proof.
  intros H. unfold counter_sum. now apply list_sum_perm, Permutation_map.
Qed.

Lemma column_counter_sum (rows : list Row) :
  forall l : Dict,
    map row_data rows = map item_data l ->
    column 0 rows = counter_sum files l
    /\ column 1 rows = counter_sum blank l
    /\ column 2 rows = counter_sum comment l
    /\ column 3 rows = counter_sum code l.
Proof.
  unfold column, counter_sum.
  induction rows as [|r rows IH]; intros [|x l] H; cbn [map] in *;
    try discriminate.
  - repeat split.
  - unfold row_data at 1 in H. unfold item_data at 1 in H.
    injection H as _ Hc Hrest. destruct (IH l Hrest) as [H0 [H1 [H2 H3]]].
    rewrite !list_sum_step, H0, H1, H2, H3, Hc. repeat split.
Qed.

(** The [SUM] row holds the sums of the counters over the mapping. *)
Lemma build_table_sum_row (d : Dict) :
  exists rows : list Row,
    build_table d
    = rows ++ [mkRow (u "SUM")
                 [counter_sum files d; counter_sum blank d;
                  counter_sum comment d; counter_sum code d]
                 false]
    /\ map row_data rows = map item_data (sorted_by_code_reverse d).
Proof.
  unfold build_table.
  destruct (add_rows_spec (length d) (sorted_by_code_reverse d) 0 []
                          (mkTotals 0 0 0 0))
    as [rows [Ht [Hd Hs]]].
  destruct (add_rows (length d) 0 (sorted_by_code_reverse d) []
                     (mkTotals 0 0 0 0)) as [table t].
  cbn [fst snd app] in Ht, Hs. subst table t.
  exists rows. split; [|exact Hd].
  destruct (column_counter_sum rows _ Hd) as [H0 [H1 [H2 H3]]].
  cbn [total_files total_blanks total_comments total_code Nat.add].
  rewrite H0, H1, H2, H3.
  rewrite !(counter_sum_perm _ _ _ (sorted_by_code_reverse_perm d)).
  reflexivity.
Qed.

Lemma counter_sum_set (f : AnalysisInfo -> nat) (d : Dict) (k : Language)
    (v : AnalysisInfo) :
  f AnalysisInfo_new = 0 ->
  counter_sum f (dict_set d k v) + f (info_of d k) = counter_sum f d + f v.
Proof.
  intros H0. unfold counter_sum, info_of.
  induction d as [|[k0 v0] d IH]; cbn [dict_set dict_get map].
  - rewrite !list_sum_step. cbn [snd list_sum fold_right]. lia.
  - destruct (Language_eq_dec k0 k) as [E|N]; cbn [map];
      rewrite !list_sum_step; cbn [snd]; lia.
Qed.

Lemma all_kind_lines_cons (fs : FileSystem) (k : LineKind) (file : Path)
    (rest : list Path) :
  all_kind_lines fs k (file :: rest)
  = match figure_out_file_type file SUPPORTED_LANGUAGES with
    | Some ftype => kind_lines_in fs ftype k file
    | None => 0
    end + all_kind_lines fs k rest.
Proof.
  reflexivity.
Qed.

Lemma totals_from (fs : FileSystem) (files0 : list Path) :
  forall st st' : State,
    analyse_files fs files0 st = (st', None) ->
    counter_sum files (language_analysis_info st')
    = counter_sum files (language_analysis_info st)
      + length (filter recognised files0)
    /\ counter_sum blank (language_analysis_info st')
       = counter_sum blank (language_analysis_info st)
         + all_kind_lines fs Blank files0
    /\ counter_sum comment (language_analysis_info st')
       = counter_sum comment (language_analysis_info st)
         + all_kind_lines fs Comment files0
    /\ counter_sum code (language_analysis_info st')
       = counter_sum code (language_analysis_info st)
         + all_kind_lines fs Code files0.
Proof.
  induction files0 as [|file rest IH]; intros st st' Hrun;
    cbn [analyse_files] in Hrun.
  - injection Hrun as <-. cbn. lia.
  - rewrite !all_kind_lines_cons. cbn [filter].
    destruct (figure_out_file_type file SUPPORTED_LANGUAGES) as [ftype|]
      eqn:Hres.
    + rewrite (recognised_resolved file ftype Hres).
      rewrite (analyse_file_step fs file st ftype Hres) in Hrun.
      destruct (read_text fs file) as [text|] eqn:Hread; [|discriminate].
      destruct (IH _ _ Hrun) as [H0 [H1 [H2 H3]]].
      cbn [language_analysis_info] in H0, H1, H2, H3.
      rewrite H0, H1, H2, H3. cbn [length].
      set (d := language_analysis_info st).
      match goal with
      | |- context [dict_set d ftype ?v] =>
          pose proof (counter_sum_set files d ftype v eq_refl) as E0;
          pose proof (counter_sum_set blank d ftype v eq_refl) as E1;
          pose proof (counter_sum_set comment d ftype v eq_refl) as E2;
          pose proof (counter_sum_set code d ftype v eq_refl) as E3
      end.
      cbn [files blank comment code] in E0, E1, E2, E3. lia.
    + rewrite (recognised_unresolved file Hres).
      rewrite (analyse_file_unresolved fs file st Hres) in Hrun.
      destruct (IH _ _ Hrun) as [H0 [H1 [H2 H3]]]. lia.
Qed.

(** X12: in the table a completed run prints, the [SUM] row is last
    and holds the number of recognised files of the sequence and the
    numbers of blank, comment and code lines of these files. *)
Theorem printed_sum_row :
  forall (fs : FileSystem) (files0 : list Path) (rd : list Path)
         (d : Dict) (table : list Row),
    run_on fs files0 = Printed rd d table ->
    exists rows : list Row,
      table
      = rows ++ [mkRow (u "SUM")
                   [length (filter recognised files0);
                    all_kind_lines fs Blank files0;
                    all_kind_lines fs Comment files0;
                    all_kind_lines fs Code files0]
                   false].
Proof.
  intros fs files0 rd d table Hrun. unfold run_on in Hrun.
  destruct (aggregate fs files0) as [st [e|]] eqn:Hagg; [discriminate|].
  injection Hrun as _ <- <-.
  destruct (totals_from fs files0 _ _ Hagg) as [H0 [H1 [H2 H3]]].
  destruct (build_table_sum_row (language_analysis_info st))
    as [rows [Ht _]].
  exists rows. rewrite Ht, H0, H1, H2, H3. reflexivity.
Qed.

(** ** The labels of the table *)

Lemma registry_names_distinct (l1 l2 : Language) :
  In l1 SUPPORTED_LANGUAGES -> In l2 SUPPORTED_LANGUAGES ->
  name l1 = name l2 -> l1 = l2.
Proof.
  unfold SUPPORTED_LANGUAGES. cbn [In]. intros H1 H2 Hn.
  repeat destruct H1 as [<-|H1]; try contradiction;
    repeat destruct H2 as [<-|H2]; try contradiction;
    try reflexivity; vm_compute in Hn; discriminate.
Qed.

Lemma registry_names_not_sum (l : Language) :
  In l SUPPORTED_LANGUAGES -> name l <> u "SUM".
Proof.
  unfold SUPPORTED_LANGUAGES. cbn [In]. intros H Hn.
  repeat destruct H as [<-|H]; try contradiction;
    vm_compute in Hn; discriminate.
Qed.

(** X13: in the table a completed run prints, no two rows have the
    same label: each language has one row and none is labelled like
    the [SUM] row. *)
Theorem printed_labels_distinct :
  forall (fs : FileSystem) (files0 : list Path) (rd : list Path)
         (d : Dict) (table : list Row),
    run_on fs files0 = Printed rd d table ->
    NoDup (map label table).
Proof.
  intros fs files0 rd d table Hrun. unfold run_on in Hrun.
  destruct (aggregate fs files0) as [st [e|]] eqn:Hagg; [discriminate|].
  injection Hrun as _ <- <-.
  destruct (keys_from fs files0 _ _ _ Hagg) as [Hnd [Hsub _]].
  cbn [language_analysis_info keys map] in Hnd, Hsub.
  specialize (Hnd (NoDup_nil _)).
  assert (Hreg : forall lang, In lang (keys (language_analysis_info st))
                              -> In lang SUPPORTED_LANGUAGES).
  { intros lang Hl. destruct (Hsub lang Hl) as [[]|[f [_ Hr]]].
    now apply figure_out_in with f. }
  set (d := language_analysis_info st) in *.
  destruct (build_table_sum_row d) as [rows [Ht Hd]].
  rewrite Ht, map_app. cbn [map label].
  assert (Hlab : map label rows
                 = map name (keys (sorted_by_code_reverse d))).
  { unfold keys. rewrite map_map.
    change (map label rows) with (map (fun r => fst (row_data r)) rows).
    rewrite <- (map_map row_data fst), Hd, map_map. reflexivity. }
  assert (Hperm : Permutation (map label rows) (map name (keys d))).
  { rewrite Hlab. unfold keys.
    apply Permutation_map, Permutation_map, sorted_by_code_reverse_perm. }
  apply Permutation_NoDup with (u "SUM" :: map label rows);
    [apply Permutation_cons_append|].
  constructor.
  - intros Hin. apply (Permutation_in _ Hperm) in Hin.
    apply in_map_iff in Hin. destruct Hin as [lang [Hn Hl]].
    now apply (registry_names_not_sum lang (Hreg lang Hl)).
  - apply (Permutation_NoDup (Permutation_sym Hperm)).
    apply NoDup_map_NoDup_ForallPairs; [|exact Hnd].
    intros l1 l2 H1 H2. apply registry_names_distinct; now apply Hreg.
Qed.

(** ** Runs that count nothing *)

Lemma analyse_files_unrecognised (fs : FileSystem) (files0 : list Path) :
  (forall f, In f files0 -> recognised f = false) ->
  forall st, analyse_files fs files0 st = (st, None).
Proof.
  induction files0 as [|file rest IH]; intros Hall st; cbn [analyse_files].
  - reflexivity.
  - assert (Hres : figure_out_file_type file SUPPORTED_LANGUAGES = None).
    { specialize (Hall file (or_introl eq_refl)). unfold recognised in Hall.
      now destruct (figure_out_file_type file SUPPORTED_LANGUAGES). }
    rewrite (analyse_file_unresolved fs file st Hres).
    apply IH. intros f Hf. apply Hall. now right.
Qed.

(** X14: when no file of the sequence is recognised (the empty
    sequence included), the run reads nothing, creates no entry and
    prints the single row [SUM] with four zeros. *)
Theorem nothing_recognised :
  forall (fs : FileSystem) (files0 : list Path),
    (forall f, In f files0 -> recognised f = false) ->
    run_on fs files0 = Printed [] [] [mkRow (u "SUM") [0; 0; 0; 0] false].
Proof.
  intros fs files0 Hall. unfold run_on, aggregate.
  rewrite (analyse_files_unrecognised fs files0 Hall). reflexivity.
Qed.

(** ** The walk of a directory *)


(** ** The properties on the example tree *)

Example scenario_single_c_file :
  clocpy project_fs main_c
  = Printed [main_c]
      [(CLIKE (u "C") (Str (u ".c")), mkAnalysisInfo 1 1 1 1)]
      [mkRow (u "C") [1; 1; 1; 1] true; mkRow (u "SUM") [1; 1; 1; 1] false].
Proof. reflexivity. Qed.

Example scenario_directory_stops_at_broken_file :
  clocpy project_fs project
  = Raised (ReadError broken_py)
      [main_c; empty_cpp; broken_py]
      (Some [(CLIKE (u "C") (Str (u ".c")), mkAnalysisInfo 1 1 1 1);
             (CLIKE (u "C++") (Tup [u ".c++"; u ".cpp"]),
              mkAnalysisInfo 1 0 0 0);
             (mkLanguage (u "Python") (Tup [u ".py"; u ".pyw"]) (Str (u "#"))
                [SeqPair [34; 34; 34]%N [34; 34; 34]%N],
              mkAnalysisInfo 1 0 0 0)]).
Proof. reflexivity. Qed.

Lemma sum_law_witness :
  aggregate project_fs [main_c; notes_txt; empty_cpp]
  = (fst (aggregate project_fs [main_c; notes_txt; empty_cpp]), None)
  /\ forall lang : Language,
       blank (info_of (language_analysis_info
                (fst (aggregate project_fs [main_c; notes_txt; empty_cpp])))
                lang)
       + comment (info_of (language_analysis_info
                (fst (aggregate project_fs [main_c; notes_txt; empty_cpp])))
                lang)
       + code (info_of (language_analysis_info
                (fst (aggregate project_fs [main_c; notes_txt; empty_cpp])))
                lang)
       = lines_read project_fs lang [main_c; notes_txt; empty_cpp].
Proof.
  split; [reflexivity|].
  apply (sum_law project_fs [main_c; notes_txt; empty_cpp]
           (fst (aggregate project_fs [main_c; notes_txt; empty_cpp]))).
  reflexivity.
Defined.

Lemma unrecognised_file_witness :
  figure_out_file_type notes_txt SUPPORTED_LANGUAGES = None
  /\ (forall st : State, analyse_file project_fs notes_txt st = (st, None))
  /\ (forall (before after : list Path) (st : State),
        analyse_files project_fs (before ++ notes_txt :: after) st
        = analyse_files project_fs (before ++ after) st).
Proof.
  split; [reflexivity|].
  apply (unrecognised_file_changes_nothing project_fs notes_txt).
  reflexivity.
Defined.

Lemma invalid_root_witness :
  is_dir project_fs missing = false
  /\ is_file project_fs missing = false
  /\ clocpy project_fs missing = Raised (ValueError missing) [] None.
Proof.
  split; [reflexivity|]. split; [reflexivity|].
  apply (invalid_root_raises project_fs missing); reflexivity.
Defined.

Lemma empty_cpp_witness :
  suffix empty_cpp = u ".cpp"
  /\ read_text project_fs empty_cpp = Some []
  /\ aggregate project_fs [empty_cpp]
     = (mkState [(CLIKE (u "C++") (Tup [u ".c++"; u ".cpp"]),
                  mkAnalysisInfo 1 0 0 0)]
                [empty_cpp],
        None)
  /\ name (CLIKE (u "C++") (Tup [u ".c++"; u ".cpp"])) = u "C++".
Proof.
  split; [reflexivity|]. split; [reflexivity|].
  apply (empty_cpp_file project_fs empty_cpp); reflexivity.
Defined.

Lemma aggregation_deterministic_witness :
  (forall f, In f [main_c; notes_txt; empty_cpp] ->
             read_text project_fs f = read_text repaired_fs f)
  /\ aggregate project_fs [main_c; notes_txt; empty_cpp]
     = aggregate repaired_fs [main_c; notes_txt; empty_cpp]
  /\ language_analysis_info
       (fst (aggregate project_fs [main_c; notes_txt; empty_cpp]))
     = language_analysis_info
         (fst (aggregate repaired_fs [main_c; notes_txt; empty_cpp])).
Proof.
  assert (H : forall f, In f [main_c; notes_txt; empty_cpp] ->
                        read_text project_fs f = read_text repaired_fs f).
  { intros f [<-|[<-|[<-|[]]]]; reflexivity. }
  split; [exact H|].
  apply (aggregation_deterministic project_fs repaired_fs
           [main_c; notes_txt; empty_cpp] H).
Defined.

Lemma read_failure_witness :
  analyse_files project_fs [main_c] (mkState [] [])
  = (fst (aggregate project_fs [main_c]), None)
  /\ figure_out_file_type broken_py SUPPORTED_LANGUAGES
     = Some (mkLanguage (u "Python") (Tup [u ".py"; u ".pyw"]) (Str (u "#"))
               [SeqPair [34; 34; 34]%N [34; 34; 34]%N])
  /\ read_text project_fs broken_py = None
  /\ exists st' : State,
       analyse_files project_fs ([main_c] ++ broken_py :: [empty_cpp])
                     (mkState [] [])
       = (st', Some (ReadError broken_py))
       /\ (let old :=
             info_of (language_analysis_info
                        (fst (aggregate project_fs [main_c])))
               (mkLanguage (u "Python") (Tup [u ".py"; u ".pyw"])
                  (Str (u "#")) [SeqPair [34; 34; 34]%N [34; 34; 34]%N]) in
           dict_get (language_analysis_info st')
             (mkLanguage (u "Python") (Tup [u ".py"; u ".pyw"])
                (Str (u "#")) [SeqPair [34; 34; 34]%N [34; 34; 34]%N])
           = Some (mkAnalysisInfo (files old + 1) (blank old)
                                  (comment old) (code old)))
       /\ (forall other : Language,
             other <> mkLanguage (u "Python") (Tup [u ".py"; u ".pyw"])
                        (Str (u "#")) [SeqPair [34; 34; 34]%N [34; 34; 34]%N] ->
             dict_get (language_analysis_info st') other
             = dict_get (language_analysis_info
                           (fst (aggregate project_fs [main_c]))) other).
Proof.
  split; [reflexivity|]. split; [reflexivity|]. split; [reflexivity|].
  apply (read_failure_keeps_files_increment project_fs [main_c] [empty_cpp]
           broken_py (mkState [] []) (fst (aggregate project_fs [main_c])));
    reflexivity.
Defined.

(** ** The further properties on the example tree *)

Lemma counters_are_tallies_witness :
  aggregate project_fs [main_c; notes_txt; empty_cpp]
  = (fst (aggregate project_fs [main_c; notes_txt; empty_cpp]), None)
  /\ forall lang : Language,
       info_of (language_analysis_info
                  (fst (aggregate project_fs [main_c; notes_txt; empty_cpp])))
               lang
       = mkAnalysisInfo
           (length (filter (attributed lang) [main_c; notes_txt; empty_cpp]))
           (kind_lines project_fs lang Blank [main_c; notes_txt; empty_cpp])
           (kind_lines project_fs lang Comment [main_c; notes_txt; empty_cpp])
           (kind_lines project_fs lang Code [main_c; notes_txt; empty_cpp]).
Proof.
  split; [reflexivity|].
  apply (counters_are_tallies project_fs [main_c; notes_txt; empty_cpp]
           (fst (aggregate project_fs [main_c; notes_txt; empty_cpp]))).
  reflexivity.
Defined.

Lemma counters_independent_of_file_order_witness :
  Permutation [main_c; empty_cpp] [empty_cpp; main_c]
  /\ aggregate project_fs [main_c; empty_cpp]
     = (fst (aggregate project_fs [main_c; empty_cpp]), None)
  /\ exists st2 : State,
       aggregate project_fs [empty_cpp; main_c] = (st2, None)
       /\ forall lang : Language,
            info_of (language_analysis_info st2) lang
            = info_of (language_analysis_info
                         (fst (aggregate project_fs [main_c; empty_cpp])))
                      lang.
Proof.
  split; [apply perm_swap|]. split; [reflexivity|].
  apply (counters_independent_of_file_order project_fs
           [main_c; empty_cpp] [empty_cpp; main_c]
           (fst (aggregate project_fs [main_c; empty_cpp]))).
  - apply perm_swap.
  - reflexivity.
Defined.

Lemma mapping_keys_witness :
  aggregate project_fs [main_c; notes_txt; broken_py; empty_cpp]
  = (fst (aggregate project_fs [main_c; notes_txt; broken_py; empty_cpp]),
     Some (ReadError broken_py))
  /\ NoDup (keys (language_analysis_info
                    (fst (aggregate project_fs
                            [main_c; notes_txt; broken_py; empty_cpp]))))
  /\ (forall lang,
        In lang (keys (language_analysis_info
                         (fst (aggregate project_fs
                                 [main_c; notes_txt; broken_py; empty_cpp])))) ->
        In lang SUPPORTED_LANGUAGES
        /\ exists file,
             In file [main_c; notes_txt; broken_py; empty_cpp]
             /\ figure_out_file_type file SUPPORTED_LANGUAGES = Some lang)
  /\ (Some (ReadError broken_py) = None ->
      forall file lang,
        In file [main_c; notes_txt; broken_py; empty_cpp] ->
        figure_out_file_type file SUPPORTED_LANGUAGES = Some lang ->
        In lang (keys (language_analysis_info
                         (fst (aggregate project_fs
                                 [main_c; notes_txt; broken_py; empty_cpp]))))).
Proof.
  split; [reflexivity|].
  apply (mapping_keys project_fs [main_c; notes_txt; broken_py; empty_cpp]
           (fst (aggregate project_fs
                   [main_c; notes_txt; broken_py; empty_cpp]))
           (Some (ReadError broken_py))).
  reflexivity.
Defined.


Lemma nothing_after_read_failure_witness :
  snd (aggregate project_fs [main_c]) = None
  /\ recognised broken_py = true
  /\ read_text project_fs broken_py = None
  /\ aggregate project_fs ([main_c] ++ broken_py :: [empty_cpp; notes_txt])
     = aggregate project_fs ([main_c] ++ [broken_py])
  /\ snd (aggregate project_fs
            ([main_c] ++ broken_py :: [empty_cpp; notes_txt]))
     = Some (ReadError broken_py).
Proof.
  split; [reflexivity|]. split; [reflexivity|]. split; [reflexivity|].
  apply (nothing_after_read_failure project_fs [main_c]
           [empty_cpp; notes_txt] broken_py); reflexivity.
Defined.

Lemma python_comment_line_witness :
  In (mkLanguage (u "Python") (Tup [u ".py"; u ".pyw"]) (Str (u "#"))
        [SeqPair [34; 34; 34]%N [34; 34; 34]%N])
     SUPPORTED_LANGUAGES
  /\ name (mkLanguage (u "Python") (Tup [u ".py"; u ".pyw"]) (Str (u "#"))
             [SeqPair [34; 34; 34]%N [34; 34; 34]%N])
     = u "Python"
  /\ u "# hi" <> []
  /\ (count_line
        (mkLanguage (u "Python") (Tup [u ".py"; u ".pyw"]) (Str (u "#"))
           [SeqPair [34; 34; 34]%N [34; 34; 34]%N])
        AnalysisInfo_new (u "# hi")
      = incr_comment AnalysisInfo_new
      <-> starts_with (u "# hi") (u "#")).
Proof.
  assert (Hin : In (mkLanguage (u "Python") (Tup [u ".py"; u ".pyw"])
                      (Str (u "#")) [SeqPair [34; 34; 34]%N [34; 34; 34]%N])
                   SUPPORTED_LANGUAGES)
    by (do 6 right; left; reflexivity).
  assert (Hne : u "# hi" <> []) by discriminate.
  split; [exact Hin|]. split; [reflexivity|]. split; [exact Hne|].
  exact (python_comment_line _ Hin eq_refl AnalysisInfo_new (u "# hi") Hne).
Defined.

Lemma printed_sum_row_witness :
  run_on project_fs [main_c]
  = Printed [main_c]
      [(CLIKE (u "C") (Str (u ".c")), mkAnalysisInfo 1 1 1 1)]
      [mkRow (u "C") [1; 1; 1; 1] true; mkRow (u "SUM") [1; 1; 1; 1] false]
  /\ exists rows : list Row,
       [mkRow (u "C") [1; 1; 1; 1] true; mkRow (u "SUM") [1; 1; 1; 1] false]
       = rows ++ [mkRow (u "SUM")
                    [length (filter recognised [main_c]);
                     all_kind_lines project_fs Blank [main_c];
                     all_kind_lines project_fs Comment [main_c];
                     all_kind_lines project_fs Code [main_c]]
                    false].
Proof.
  split; [reflexivity|].
  apply (printed_sum_row project_fs [main_c] [main_c]
           [(CLIKE (u "C") (Str (u ".c")), mkAnalysisInfo 1 1 1 1)]).
  reflexivity.
Defined.

Lemma printed_labels_distinct_witness :
  run_on project_fs [main_c]
  = Printed [main_c]
      [(CLIKE (u "C") (Str (u ".c")), mkAnalysisInfo 1 1 1 1)]
      [mkRow (u "C") [1; 1; 1; 1] true; mkRow (u "SUM") [1; 1; 1; 1] false]
  /\ NoDup (map label
              [mkRow (u "C") [1; 1; 1; 1] true;
               mkRow (u "SUM") [1; 1; 1; 1] false]).
Proof.
  split; [reflexivity|].
  apply (printed_labels_distinct project_fs [main_c] [main_c]
           [(CLIKE (u "C") (Str (u ".c")), mkAnalysisInfo 1 1 1 1)]).
  reflexivity.
Defined.

Lemma nothing_recognised_witness :
  (forall f, In f [notes_txt; missing] -> recognised f = false)
  /\ run_on project_fs [notes_txt; missing]
     = Printed [] [] [mkRow (u "SUM") [0; 0; 0; 0] false].
Proof.
  assert (H : forall f, In f [notes_txt; missing] -> recognised f = false).
  { intros f [<-|[<-|[]]]; reflexivity. }
  split; [exact H|].
  apply (nothing_recognised project_fs [notes_txt; missing] H).
Defined.
